(** * The mock banking API client (js/apiClient.js), embedded in Rocq

    The module under study keeps all of its state in one object,
    [mockState], and exposes a handful of asynchronous endpoints that read and
    mutate it.  Every endpoint runs to completion before the next one is
    dispatched, so an endpoint is modelled as a function from the store to a
    result and a new store.

    Modelling conventions.
    - A JS [Number] is modelled by [Z].  Timestamps are integral
      milliseconds, which doubles hold exactly.  Monetary amounts are counted
      in hundredths of the currency unit, so the seeded balance 4280.75 is
      the integer 428075.  The code keeps them as IEEE doubles in currency
      units: a [+] or [-] on money in this development stands for the one
      rounded operation of the code at that place, and a comparison for the
      comparison of two finite doubles.  No general statement about balances
      equates the results of different sequences of operations, since doubles
      do not obey such identities; [Double] below carries the two ledger
      operations of [confirm] on binary64 numbers and shows the rounding on
      the seeded balances.  The sample stores move whole currency units, for
      which the operations of the code are exact on the seeded balances.  NaN
      and the infinities are outside the model.
    - A JS string is a [string]; the empty string is the falsy one.  The
      code only tests request fields for truthiness and compares them with
      stored strings, so a field that is absent from a request body is
      modelled by the empty string.
    - The [amount] of a transfer request is a finite [Number], as the
      transfer page sends it, so [Number(amount)] is the identity.  A request
      whose amount is a string is outside the model: [initiate] would store
      [Number] of it, NaN when the string is no numeral.
    - [Math.random()] and [Date.now()] are inputs of the endpoint that reads
      them.
    - [handleFailure] always throws the normalised error; the toast and the
      modal it opens are user-interface effects outside the store.

    Beside the endpoints, the development embeds the router on paths and
    methods, the submit handler of the transfer page (js/transfer.js), the
    shape of the errors thrown by [handleFailure] and sent by the two
    versions of the backend error handler, [maskAccountNumber] of
    js/ui/formatters.js and the in-memory database of the backend. *)

From Stdlib Require Import PrimFloat.
From Stdlib Require Import ZArith Lia Ascii String.
From stdpp Require Import base option list strings gmap.

Local Open Scope string_scope.
Local Open Scope Z_scope.

(** ** Data model *)

Module User.
Record t := mk { id : string; email : string; password : string; name : string }.
End User.

Module Account.
Record t := mk {
  id : string; userId : string; name : string; number : string;
  balance : Z; currency : string }.

Definition setBalance (a : t) (b : Z) : t :=
  mk (id a) (userId a) (name a) (number a) b (currency a).
End Account.

Module Transaction.
Record t := mk {
  id : string; accountId : string; description : string;
  amount : Z; createdAt : Z }.
End Transaction.

Module Otp.
Record t := mk { code : string; attempts : Z; expiresAt : Z }.

Definition bumpAttempts (o : t) : t := mk (code o) (attempts o + 1) (expiresAt o).
End Otp.

Inductive Status := PENDING_OTP | VERIFIED | COMPLETED.

#[global] Instance Status_eq_dec : EqDecision Status.
Proof. solve_decision. Defined.

Module Transfer.
Record t := mk {
  id : string; userId : string; fromAccountId : string; toAccountId : string;
  amount : Z; status : Status; otp : option Otp.t; createdAt : Z }.

Definition setOtp (x : t) (o : option Otp.t) : t :=
  mk (id x) (userId x) (fromAccountId x) (toAccountId x) (amount x) (status x) o (createdAt x).

Definition setStatus (x : t) (s : Status) : t :=
  mk (id x) (userId x) (fromAccountId x) (toAccountId x) (amount x) s (otp x) (createdAt x).
End Transfer.

(** The store: [users], [accounts] and [transactions] are arrays, [tokens]
    and [transfers] are [Map]s keyed by strings. *)
Record MockState := mkState {
  users : list User.t;
  tokens : gmap string string;
  accounts : list Account.t;
  transactions : list Transaction.t;
  transfers : gmap string Transfer.t }.

Definition setUsers (s : MockState) (us : list User.t) : MockState :=
  mkState us (tokens s) (accounts s) (transactions s) (transfers s).
Definition setTokens (s : MockState) (tk : gmap string string) : MockState :=
  mkState (users s) tk (accounts s) (transactions s) (transfers s).
Definition setAccounts (s : MockState) (ac : list Account.t) : MockState :=
  mkState (users s) (tokens s) ac (transactions s) (transfers s).
Definition setTransactions (s : MockState) (tx : list Transaction.t) : MockState :=
  mkState (users s) (tokens s) (accounts s) tx (transfers s).
Definition setTransfers (s : MockState) (tr : gmap string Transfer.t) : MockState :=
  mkState (users s) (tokens s) (accounts s) (transactions s) tr.

(** The seeded store; [loadTime] is the value of [Date.now()] when the module
    is evaluated. *)
Definition mockState (loadTime : Z) : MockState :=
  mkState
    [ User.mk "user-1" "demo@bank.test" "password123" "Demo Customer" ]
    ∅
    [ Account.mk "acct-1" "user-1" "Everyday Checking" "1234567890" 428075 "USD";
      Account.mk "acct-2" "user-1" "Savings Vault" "9876543210" 1325035 "USD" ]
    [ Transaction.mk "tx-1" "acct-1" "Coffee shop" (-875) (loadTime - 1000 * 60 * 60 * 4);
      Transaction.mk "tx-2" "acct-1" "Direct deposit" 180000 (loadTime - 1000 * 60 * 60 * 26);
      Transaction.mk "tx-3" "acct-2" "Transfer to checking" (-20000) (loadTime - 1000 * 60 * 60 * 30) ]
    ∅.

(** ** Errors and the store monad *)

Inductive ErrorCode :=
  | VALIDATION | UNAUTHORIZED | EMAIL_IN_USE | INVALID_CREDENTIALS
  | ACCOUNT_NOT_FOUND | INSUFFICIENT_FUNDS | TRANSFER_NOT_FOUND
  | OTP_EXPIRED | OTP_LOCKED | OTP_INVALID | OTP_REQUIRED | CONTACT_OFFICER.

Inductive Result (A : Type) :=
  | Ok (a : A)
  | Err (e : ErrorCode).
Arguments Ok {A} a.
Arguments Err {A} e.

Definition isOk {A} (r : Result A) : Prop :=
  match r with Ok _ => True | Err _ => False end.

(** An endpoint yields a value or throws, and in both cases leaves a store
    behind: a mutation made before a throw stays. *)
Definition M (A : Type) : Type := MockState → Result A * MockState.

Definition ret {A} (a : A) : M A := λ s, (Ok a, s).
Definition bind {A B} (c : M A) (k : A → M B) : M B :=
  λ s, match c s with
       | (Ok a, s') => k a s'
       | (Err e, s') => (Err e, s')
       end.
Definition getState : M MockState := λ s, (Ok s, s).
Definition modify (f : MockState → MockState) : M unit := λ s, (Ok tt, f s).

Declare Scope store_scope.
Delimit Scope store_scope with store.
Notation "'let*' x ':=' c 'in' k" := (bind c (λ x, k))
  (at level 10, x name, c at level 100, k at level 200) : store_scope.
Notation "c ';;' k" := (bind c (λ _, k))
  (at level 100, k at level 200, right associativity) : store_scope.

(** [handleFailure(errorLike, context)]: throws [errorLike.errorCode], or
    [CONTACT_OFFICER] when the error carries no code. *)
Definition handleFailure {A} (errorCode : option ErrorCode) : M A :=
  λ s, (Err (default CONTACT_OFFICER errorCode), s).

(** [if (cond) { await handleFailure(...) }] *)
Definition failIf (cond : bool) (e : ErrorCode) : M unit :=
  if cond then handleFailure (Some e) else ret tt.

(** ** JavaScript helpers *)

(** Truthiness of a string and of a number. *)
Definition truthy (s : string) : bool := bool_decide (s ≠ "").
Definition truthyNum (n : Z) : bool := bool_decide (n ≠ 0).

(** [a || b] on strings. *)
Definition orElse (a b : string) : string := if truthy a then a else b.

(** [n.toString()] for an integral [n >= 0]: the decimal digits, most
    significant first. *)
Definition digitChar (d : Z) : ascii := ascii_of_nat (48 + Z.to_nat d).

Fixpoint toStringAux (fuel : nat) (n : Z) (acc : string) : string :=
  match fuel with
  | O => acc
  | S fuel' =>
      let acc' := String (digitChar (n mod 10)) acc in
      if n <? 10 then acc' else toStringAux fuel' (n / 10) acc'
  end.

Definition toString (n : Z) : string :=
  toStringAux (S (Z.to_nat (Z.log2 n))) n "".

(** A string of decimal digits only. *)
Definition isDigit (c : ascii) : bool :=
  let n := nat_of_ascii c in (48 <=? n)%nat && (n <=? 57)%nat.

Fixpoint allDigits (s : string) : bool :=
  match s with
  | EmptyString => true
  | String c s' => isDigit c && allDigits s'
  end.

(** [makeId(prefix)]: the prefix, a dash and six random base-36 characters;
    [suffix] stands for [Math.random().toString(36).slice(2, 8)]. *)
Definition makeId (prefix suffix : string) : string := prefix +:+ "-" +:+ suffix.

(** [Array.prototype.find]: the first element satisfying the predicate,
    together with its index so that a later mutation of the found object can
    be written back in place. *)
Definition find {A} (p : A → bool) (l : list A) : option (nat * A) :=
  list_find (λ x, p x = true) l.

(** ** Authentication *)

Definition requireAuth (authToken : string) : M User.t :=
  (let* s := getState in
   match tokens s !! authToken with
   | Some userId =>
       if truthy userId then
         match find (λ u, bool_decide (User.id u = userId)) (users s) with
         | Some (_, user) => ret user
         | None => handleFailure (Some UNAUTHORIZED)
         end
       else handleFailure (Some UNAUTHORIZED)
   | None => handleFailure (Some UNAUTHORIZED)
   end)%store.

(** The summary [{ id, email, name }] returned with a token. *)
Record UserSummary := mkSummary { sum_id : string; sum_email : string; sum_name : string }.
Definition summary (u : User.t) : UserSummary :=
  mkSummary (User.id u) (User.email u) (User.name u).

Module mockAuth.

(** [userSfx], [acctSfx] and [tokenSfx] are the [makeId] draws, [numDraw]
    is [Math.floor(Math.random() * 9e9)]. *)
Definition register (email password name : string)
    (userSfx acctSfx tokenSfx : string) (numDraw : Z) : M (UserSummary * string) :=
  (failIf (negb (truthy email) || negb (truthy password)) VALIDATION ;;
   let* s := getState in
   failIf (bool_decide (is_Some (find (λ u, bool_decide (User.email u = email)) (users s))))
          EMAIL_IN_USE ;;
   let newUser := User.mk (makeId "user" userSfx) email password (orElse name "New Customer") in
   modify (λ s, setUsers s (users s ++ [newUser])) ;;
   modify (λ s, setAccounts s (accounts s ++
      [Account.mk (makeId "acct" acctSfx) (User.id newUser) "New Checking"
                  (toString (numDraw + 1000000000)) 0 "USD"])) ;;
   let token := makeId "token" tokenSfx in
   modify (λ s, setTokens s (<[token := User.id newUser]> (tokens s))) ;;
   ret (summary newUser, token))%store.

Definition login (email password : string) (tokenSfx : string) : M (UserSummary * string) :=
  (let* s := getState in
   match find (λ u, bool_decide (User.email u = email) && bool_decide (User.password u = password))
              (users s) with
   | None => handleFailure (Some INVALID_CREDENTIALS)
   | Some (_, user) =>
       let token := makeId "token" tokenSfx in
       modify (λ s, setTokens s (<[token := User.id user]> (tokens s))) ;;
       ret (summary user, token)
   end)%store.

Definition me (authToken : string) : M UserSummary :=
  (let* user := requireAuth authToken in
   ret (summary user))%store.

End mockAuth.

(** ** Ledger queries *)

Definition mockAccounts (authToken : string) : M (list Account.t) :=
  (let* user := requireAuth authToken in
   let* s := getState in
   ret (List.filter (λ acct, bool_decide (Account.userId acct = User.id user)) (accounts s)))%store.

(** [Array.prototype.sort] with the comparator
    [(a, b) => b.createdAt - a.createdAt]: a stable sort, newest first.
    [insertTx] puts [x] in front of the first element that is not newer than
    it, so elements with equal timestamps keep their order. *)
Fixpoint insertTx (x : Transaction.t) (l : list Transaction.t) : list Transaction.t :=
  match l with
  | [] => [x]
  | y :: l' =>
      if Transaction.createdAt y - Transaction.createdAt x <=? 0
      then x :: y :: l'
      else y :: insertTx x l'
  end.

Definition sortNewestFirst (l : list Transaction.t) : list Transaction.t :=
  foldr insertTx [] l.

Definition includes (x : string) (l : list string) : bool := bool_decide (x ∈ l).

Definition mockTransactions (authToken : string) (accountId : string)
    : M (list Transaction.t) :=
  (let* user := requireAuth authToken in
   let* s := getState in
   let accts := List.filter (λ acct, bool_decide (Account.userId acct = User.id user)) (accounts s) in
   let allowedAccountIds := List.map Account.id accts in
   ret (sortNewestFirst
          (List.filter
             (λ tx, if truthy accountId
                    then bool_decide (Transaction.accountId tx = accountId)
                    else includes (Transaction.accountId tx) allowedAccountIds)
             (transactions s))))%store.

(** ** The transfer workflow *)

Record Receipt := mkReceipt {
  r_id : string; r_fromAccount : string; r_toAccount : string;
  r_amount : Z; r_currency : string; r_createdAt : Z; r_reference : string }.

(** The object stored under a key of [transfers] is only ever reached through
    that key, so a field assignment on it is an update of the map at that
    key. *)
Definition updTransfer (transferId : string) (x : Transfer.t) : M unit :=
  modify (λ s, setTransfers s (<[transferId := x]> (transfers s))).

Definition setAccountAt (i : nat) (a : Account.t) : M unit :=
  modify (λ s, setAccounts s (<[i := a]> (accounts s))).

(** The predicates handed to [find]: [initiate] and [confirm] resolve the
    source account with
    [(acct) => acct.id === accountId && acct.userId === user.id], [confirm]
    resolves the destination with [(acct) => acct.id === accountId]. *)
Definition ownedBy (accountId : string) (user : User.t) (acct : Account.t) : bool :=
  bool_decide (Account.id acct = accountId) && bool_decide (Account.userId acct = User.id user).

Definition hasId (accountId : string) (acct : Account.t) : bool :=
  bool_decide (Account.id acct = accountId).

Module mockTransfer.

(** [transferSfx] is the [makeId] draw and [now] is [Date.now()]. *)
Definition initiate (authToken : string) (fromAccountId toAccountId : string) (amount : Z)
    (transferSfx : string) (now : Z) : M (string * Status) :=
  (let* user := requireAuth authToken in
   failIf (negb (truthy fromAccountId) || negb (truthy toAccountId) || negb (truthyNum amount))
          VALIDATION ;;
   let* s := getState in
   match find (ownedBy fromAccountId user) (accounts s) with
   | None => handleFailure (Some ACCOUNT_NOT_FOUND)
   | Some (_, fromAccount) =>
       failIf (amount >? Account.balance fromAccount) INSUFFICIENT_FUNDS ;;
       let transferId := makeId "transfer" transferSfx in
       updTransfer transferId
         (Transfer.mk transferId (User.id user) fromAccountId toAccountId amount
                      PENDING_OTP None now) ;;
       ret (transferId, PENDING_OTP)
   end)%store.

(** [OTP_TTL] is [5 * 60 * 1000] milliseconds. *)
Definition OTP_TTL : Z := 5 * 60 * 1000.

(** [draw] is [Math.floor(Math.random() * 900000)], an integer of
    [0, 900000); the code is the decimal rendering of [100000 + draw]. *)
Definition sendOtp (authToken : string) (transferId : string)
    (draw : Z) (now : Z) : M string :=
  (let* s := getState in
   let transfer := transfers s !! transferId in
   requireAuth authToken ;;
   match transfer with
   | None => handleFailure (Some TRANSFER_NOT_FOUND)
   | Some transfer =>
       let code := toString (100000 + draw) in
       updTransfer transferId
         (Transfer.setOtp transfer (Some (Otp.mk code 0 (now + OTP_TTL)))) ;;
       ret code
   end)%store.

Definition verifyOtp (authToken : string) (transferId : string) (code : string)
    (now : Z) : M Status :=
  (let* s := getState in
   let transfer := transfers s !! transferId in
   requireAuth authToken ;;
   match transfer with
   | None => handleFailure (Some TRANSFER_NOT_FOUND)
   | Some transfer =>
       match Transfer.otp transfer with
       | None => handleFailure (Some TRANSFER_NOT_FOUND)
       | Some otp =>
           failIf (Otp.expiresAt otp <? now) OTP_EXPIRED ;;
           failIf (Otp.attempts otp >=? 5) OTP_LOCKED ;;
           if bool_decide (Otp.code otp ≠ code) then
             updTransfer transferId (Transfer.setOtp transfer (Some (Otp.bumpAttempts otp))) ;;
             handleFailure (Some OTP_INVALID)
           else
             updTransfer transferId (Transfer.setStatus transfer VERIFIED) ;;
             ret VERIFIED
       end
   end)%store.

(** [receiptSfx] is the [makeId] draw, [txNow] and [receiptNow] are the two
    readings of [Date.now()], [reference] is [makeReferenceCode()]. *)
Definition confirm (authToken : string) (transferId : string) (note : string)
    (receiptSfx : string) (txNow receiptNow : Z) (reference : string)
    : M (string * Receipt) :=
  (let* s := getState in
   let transfer := transfers s !! transferId in
   let* user := requireAuth authToken in
   match transfer with
   | None => handleFailure (Some TRANSFER_NOT_FOUND)
   | Some transfer =>
       failIf (bool_decide (Transfer.status transfer ≠ VERIFIED)) OTP_REQUIRED ;;
       match find (ownedBy (Transfer.fromAccountId transfer) user) (accounts s) with
       | None => handleFailure (Some ACCOUNT_NOT_FOUND)
       | Some (i, fromAccount) =>
           failIf (Transfer.amount transfer >? Account.balance fromAccount) INSUFFICIENT_FUNDS ;;
           setAccountAt i (Account.setBalance fromAccount
                             (Account.balance fromAccount - Transfer.amount transfer)) ;;
           let* s1 := getState in
           let toAccount := find (hasId (Transfer.toAccountId transfer)) (accounts s1) in
           match toAccount with
           | Some (j, toAcct) =>
               setAccountAt j (Account.setBalance toAcct
                                 (Account.balance toAcct + Transfer.amount transfer))
           | None => ret tt
           end ;;
           let receiptId := makeId "tx" receiptSfx in
           modify (λ s, setTransactions s (transactions s ++
             [Transaction.mk receiptId (Account.id fromAccount) (orElse note "Transfer")
                             (- Transfer.amount transfer) txNow])) ;;
           updTransfer transferId (Transfer.setStatus transfer COMPLETED) ;;
           ret (transferId,
                mkReceipt receiptId (Account.number fromAccount)
                  (orElse (from_option (λ p, Account.number (snd p)) "" toAccount)
                          (Transfer.toAccountId transfer))
                  (Transfer.amount transfer) (Account.currency fromAccount)
                  receiptNow reference)
       end
   end)%store.

End mockTransfer.

(** ** Request dispatch *)

(** A request accepted by the router, together with the values the
    environment supplies while it is served.  [Unknown] stands for every
    (path, method) pair outside the table. *)
Inductive Call :=
  | Register (email password name userSfx acctSfx tokenSfx : string) (numDraw : Z)
  | Login (email password tokenSfx : string)
  | Me (authToken : string)
  | Accounts (authToken : string)
  | Transactions (authToken accountId : string)
  | Initiate (authToken fromAccountId toAccountId : string) (amount : Z)
             (transferSfx : string) (now : Z)
  | SendOtp (authToken transferId : string) (draw now : Z)
  | VerifyOtp (authToken transferId code : string) (now : Z)
  | Confirm (authToken transferId note receiptSfx : string) (txNow receiptNow : Z)
            (reference : string)
  | Unknown.

Inductive Response :=
  | RSession (user : UserSummary) (token : string)
  | RUser (user : UserSummary)
  | RAccounts (l : list Account.t)
  | RTransactions (l : list Transaction.t)
  | RInitiated (transferId : string) (status : Status)
  | ROtpSent (code : string)
  | RStatus (status : Status)
  | RConfirmed (transferId : string) (receipt : Receipt).

Definition mapResult {A B} (f : A → B) (c : M A) : M B :=
  (let* a := c in ret (f a))%store.

Definition routeMockRequest (c : Call) : M Response :=
  match c with
  | Register email password name userSfx acctSfx tokenSfx numDraw =>
      mapResult (λ p, RSession (fst p) (snd p))
        (mockAuth.register email password name userSfx acctSfx tokenSfx numDraw)
  | Login email password tokenSfx =>
      mapResult (λ p, RSession (fst p) (snd p)) (mockAuth.login email password tokenSfx)
  | Me authToken => mapResult RUser (mockAuth.me authToken)
  | Accounts authToken => mapResult RAccounts (mockAccounts authToken)
  | Transactions authToken accountId =>
      mapResult RTransactions (mockTransactions authToken accountId)
  | Initiate authToken fromAccountId toAccountId amount transferSfx now =>
      mapResult (λ p, RInitiated (fst p) (snd p))
        (mockTransfer.initiate authToken fromAccountId toAccountId amount transferSfx now)
  | SendOtp authToken transferId draw now =>
      mapResult ROtpSent (mockTransfer.sendOtp authToken transferId draw now)
  | VerifyOtp authToken transferId code now =>
      mapResult RStatus (mockTransfer.verifyOtp authToken transferId code now)
  | Confirm authToken transferId note receiptSfx txNow receiptNow reference =>
      mapResult (λ p, RConfirmed (fst p) (snd p))
        (mockTransfer.confirm authToken transferId note receiptSfx txNow receiptNow reference)
  | Unknown => handleFailure None
  end.

(** Serving a list of requests one after the other; the results are dropped,
    as a caller that catches every error would. *)
Definition serve (cs : list Call) (s : MockState) : MockState :=
  foldl (λ s c, snd (routeMockRequest c s)) s cs.

(** ** Vocabulary of the statements *)

(** The status of the transfer stored under [transferId], if there is one. *)
Definition statusOf (s : MockState) (transferId : string) : option Status :=
  Transfer.status <$> transfers s !! transferId.

(** The balance of the account stored at index [i]. *)
Definition balanceAt (s : MockState) (i : nat) : option Z :=
  Account.balance <$> accounts s !! i.

(** The ledger update of [confirm], first half:
    [fromAccount.balance -= amount], for the account found at index [i]. *)
Definition debit (i : nat) (fromAccount : Account.t) (amount : Z) (accts : list Account.t)
    : list Account.t :=
  <[i := Account.setBalance fromAccount (Account.balance fromAccount - amount)]> accts.

(** Second half:
    [const toAccount = accounts.find(...); if (toAccount) toAccount.balance += amount]. *)
Definition credit (toAccountId : string) (amount : Z) (accts : list Account.t)
    : list Account.t :=
  match find (hasId toAccountId) accts with
  | Some (j, toAcct) => <[j := Account.setBalance toAcct (Account.balance toAcct + amount)]> accts
  | None => accts
  end.

(** The store [confirm] leaves behind when it succeeds. *)
Definition confirmed (s : MockState) (transferId : string) (t : Transfer.t)
    (i : nat) (fromAccount : Account.t) (note receiptSfx : string) (txNow : Z) : MockState :=
  mkState (users s) (tokens s)
    (credit (Transfer.toAccountId t) (Transfer.amount t)
       (debit i fromAccount (Transfer.amount t) (accounts s)))
    (transactions s ++
       [Transaction.mk (makeId "tx" receiptSfx) (Account.id fromAccount)
          (orElse note "Transfer") (- Transfer.amount t) txNow])
    (<[transferId := Transfer.setStatus t COMPLETED]> (transfers s)).

(** The requests of one caller who submits one passcode after the other for
    one transfer, each at its own time. *)
Definition verifyCalls (authToken transferId : string) (tries : list (string * Z)) : list Call :=
  (λ p, VerifyOtp authToken transferId (fst p) (snd p)) <$> tries.

(** The ids of the accounts a user owns. *)
Definition ownedAccountIds (s : MockState) (userId : string) : list string :=
  List.map Account.id
    (List.filter (λ acct, bool_decide (Account.userId acct = userId)) (accounts s)).

(** Newest first: no element is older than one that follows it. *)
Fixpoint newestFirst (l : list Transaction.t) : Prop :=
  match l with
  | [] => True
  | x :: l' => Forall (λ y, Transaction.createdAt y ≤ Transaction.createdAt x) l' ∧ newestFirst l'
  end.

(** ** Sample stores *)

(** The seeded store after the demo customer has signed in. *)
Definition demoStore : MockState :=
  snd (mockAuth.login "demo@bank.test" "password123" "tok001" (mockState 100000000)).

(** The seeded user. *)
Definition demoUser : User.t :=
  User.mk "user-1" "demo@bank.test" "password123" "Demo Customer".

(** A transfer of 5000 from the checking to the savings account, initiated by
    the demo customer. *)
Definition pendingStore : MockState :=
  snd (mockTransfer.initiate "token-tok001" "acct-1" "acct-2" 5000 "abc123" 100000001 demoStore).

(** The same after [sendOtp] at time 100000002: the passcode is "123456" and
    expires at 100300002. *)
Definition otpStore : MockState :=
  snd (mockTransfer.sendOtp "token-tok001" "transfer-abc123" 23456 100000002 pendingStore).

(** The same after five requests with a wrong passcode. *)
Definition lockedStore : MockState :=
  serve (replicate 5 (VerifyOtp "token-tok001" "transfer-abc123" "000000" 100000003)) otpStore.

(** The locked challenge of [lockedStore] replaced by a second [sendOtp], at
    time 100000004: the passcode is now "654321". *)
Definition resentStore : MockState :=
  snd (mockTransfer.sendOtp "token-tok001" "transfer-abc123" 554321 100000004 lockedStore).

(** The store after the transfer of [otpStore] has been verified and
    confirmed: its status is COMPLETED and 5000 has moved. *)
Definition completedStore : MockState :=
  serve [ VerifyOtp "token-tok001" "transfer-abc123" "123456" 100000003;
          Confirm "token-tok001" "transfer-abc123" "" "rcp001" 100000004 100000005
                  "REF-AAAA-BBBB" ] otpStore.

(** The seeded store after a second customer, Eve, has registered: she is
    "user-eve001", owns "acct-eva001" and holds the token "token-evt001". *)
Definition eveStore : MockState :=
  snd (mockAuth.register "eve@bank.test" "hunter2" "Eve" "eve001" "eva001" "evt001" 5
         (mockState 100000000)).

(** ** What one request does to the store *)

(** The three queries of the router. *)
Definition isQuery (c : Call) : Prop :=
  match c with
  | Me _ | Accounts _ | Transactions _ _ => True
  | _ => False
  end.

(** [Effect s call r s']: serving [call] on the store [s] may answer [r] and
    leave [s'].  One constructor per way an endpoint writes to the store;
    [EffNone] covers the queries and every throw that happens before a write. *)
Inductive Effect (s : MockState) : Call → Result Response → MockState → Prop :=
  | EffNone call r :
      isQuery call ∨ (∃ e, r = Err e ∧ e ≠ OTP_INVALID) →
      Effect s call r s
  | EffRegister email password name userSfx acctSfx tokenSfx numDraw :
      truthy email = true → truthy password = true →
      find (λ u, bool_decide (User.email u = email)) (users s) = None →
      let newUser :=
        User.mk (makeId "user" userSfx) email password (orElse name "New Customer") in
      Effect s (Register email password name userSfx acctSfx tokenSfx numDraw)
        (Ok (RSession (summary newUser) (makeId "token" tokenSfx)))
        (mkState (users s ++ [newUser])
           (<[makeId "token" tokenSfx := User.id newUser]> (tokens s))
           (accounts s ++
              [Account.mk (makeId "acct" acctSfx) (User.id newUser) "New Checking"
                          (toString (numDraw + 1000000000)) 0 "USD"])
           (transactions s) (transfers s))
  | EffLogin email password tokenSfx i user :
      find (λ u, bool_decide (User.email u = email) && bool_decide (User.password u = password))
           (users s) = Some (i, user) →
      Effect s (Login email password tokenSfx)
        (Ok (RSession (summary user) (makeId "token" tokenSfx)))
        (setTokens s (<[makeId "token" tokenSfx := User.id user]> (tokens s)))
  | EffInitiate authToken fromAccountId toAccountId amount sfx now user i acct :
      requireAuth authToken s = (Ok user, s) →
      truthy fromAccountId = true → truthy toAccountId = true → amount ≠ 0 →
      find (ownedBy fromAccountId user) (accounts s) = Some (i, acct) →
      amount ≤ Account.balance acct →
      Effect s (Initiate authToken fromAccountId toAccountId amount sfx now)
        (Ok (RInitiated (makeId "transfer" sfx) PENDING_OTP))
        (setTransfers s
           (<[makeId "transfer" sfx :=
                Transfer.mk (makeId "transfer" sfx) (User.id user) fromAccountId toAccountId
                            amount PENDING_OTP None now]> (transfers s)))
  | EffSendOtp authToken transferId draw now user t :
      requireAuth authToken s = (Ok user, s) →
      transfers s !! transferId = Some t →
      Effect s (SendOtp authToken transferId draw now)
        (Ok (ROtpSent (toString (100000 + draw))))
        (setTransfers s
           (<[transferId :=
                Transfer.setOtp t (Some (Otp.mk (toString (100000 + draw)) 0 (now + 300000)))]>
              (transfers s)))
  | EffVerifyWrong authToken transferId code now user t o :
      requireAuth authToken s = (Ok user, s) →
      transfers s !! transferId = Some t → Transfer.otp t = Some o →
      now ≤ Otp.expiresAt o → Otp.attempts o < 5 → Otp.code o ≠ code →
      Effect s (VerifyOtp authToken transferId code now) (Err OTP_INVALID)
        (setTransfers s
           (<[transferId := Transfer.setOtp t (Some (Otp.bumpAttempts o))]> (transfers s)))
  | EffVerifyOk authToken transferId code now user t o :
      requireAuth authToken s = (Ok user, s) →
      transfers s !! transferId = Some t → Transfer.otp t = Some o →
      now ≤ Otp.expiresAt o → Otp.attempts o < 5 → Otp.code o = code →
      Effect s (VerifyOtp authToken transferId code now) (Ok (RStatus VERIFIED))
        (setTransfers s (<[transferId := Transfer.setStatus t VERIFIED]> (transfers s)))
  | EffConfirm authToken transferId note sfx txNow receiptNow reference user t i fromAccount
               receipt :
      requireAuth authToken s = (Ok user, s) →
      transfers s !! transferId = Some t → Transfer.status t = VERIFIED →
      find (ownedBy (Transfer.fromAccountId t) user) (accounts s) = Some (i, fromAccount) →
      Transfer.amount t ≤ Account.balance fromAccount →
      Effect s (Confirm authToken transferId note sfx txNow receiptNow reference)
        (Ok (RConfirmed transferId receipt))
        (confirmed s transferId t i fromAccount note sfx txNow).

(** The token a request issues, if it issues one. *)
Definition issuedToken (c : Call) : option string :=
  match c with
  | Register _ _ _ _ _ tokenSfx _ => Some (makeId "token" tokenSfx)
  | Login _ _ tokenSfx => Some (makeId "token" tokenSfx)
  | _ => None
  end.

(** Every stored challenge has counted between zero and five attempts. *)
Definition challengesBounded (s : MockState) : Prop :=
  ∀ transferId t o,
    transfers s !! transferId = Some t → Transfer.otp t = Some o →
    0 ≤ Otp.attempts o ≤ 5.

(** Every token of the store maps to the non-empty id of a stored user. *)
Definition tokensValid (s : MockState) : Prop :=
  ∀ token userId,
    tokens s !! token = Some userId →
    userId ≠ "" ∧ ∃ u, u ∈ users s ∧ User.id u = userId.

(** The requests answered so far by a store that started as the seeded one. *)
Definition reachable (s : MockState) : Prop :=
  ∃ loadTime cs, s = serve cs (mockState loadTime).

(** Every stored user has a non-empty id. *)
Definition usersNamed (s : MockState) : Prop :=
  ∀ u, u ∈ users s → User.id u ≠ "".

(** No two stored users share an e-mail address. *)
Definition emailsUnique (s : MockState) : Prop :=
  NoDup (User.email <$> users s).

(** [demoStore] after Eve has registered as well. *)
Definition eveStoreAfterLogin : MockState :=
  snd (routeMockRequest (Register "eve@bank.test" "hunter2" "Eve" "eve001" "eva001" "evt001" 5)
         demoStore).

(** The filter [mockTransactions] applies before sorting, for a caller with
    id [userId]. *)
Definition txVisible (s : MockState) (userId accountId : string) (tx : Transaction.t) : bool :=
  if truthy accountId
  then bool_decide (Transaction.accountId tx = accountId)
  else includes (Transaction.accountId tx) (ownedAccountIds s userId).




(** The four requests of one transfer, made by one caller: [initiate],
    [sendOtp], [verifyOtp] with the code that [sendOtp] returned, [confirm]. *)
Definition transferCalls (authToken fromAccountId toAccountId : string) (amount : Z)
    (transferSfx : string) (initiatedAt draw sentAt verifiedAt : Z)
    (note receiptSfx : string) (txNow receiptNow : Z) (reference : string) : list Call :=
  [ Initiate authToken fromAccountId toAccountId amount transferSfx initiatedAt;
    SendOtp authToken (makeId "transfer" transferSfx) draw sentAt;
    VerifyOtp authToken (makeId "transfer" transferSfx) (toString (100000 + draw)) verifiedAt;
    Confirm authToken (makeId "transfer" transferSfx) note receiptSfx txNow receiptNow
            reference ].

(** The demo customer has moved the amount -2000000 from the checking to the
    savings account, through the four requests of the workflow: the checking
    account holds 2428075 and the savings account -674965. *)
Definition overdrawnStore : MockState :=
  serve (transferCalls "token-tok001" "acct-1" "acct-2" (-2000000) "neg001"
           100000001 23456 100000002 100000003 "" "rcp001" 100000004 100000005
           "REF-AAAA-BBBB") demoStore.


(** ** The ledger arithmetic on doubles *)

(** The two assignments of [confirm] on the numbers the code holds, IEEE
    binary64 doubles in currency units:
    [fromAccount.balance -= transfer.amount] and
    [toAccount.balance += transfer.amount]. *)
Module Double.
Definition debit (balance amount : float) : float := (balance - amount)%float.

Definition credit (balance amount : float) : float := (balance + amount)%float.
End Double.

(** ** The router on paths and methods *)

(** The body of a request: the fields the endpoints destructure; an absent
    string field is the empty string and an absent [amount] is 0 (as falsy as
    [undefined] for the only test made on it before it is used).  [toAccount]
    is the field the transfer page sends for an external destination. *)
Record Body := mkBody {
  b_email : string; b_password : string; b_name : string;
  b_fromAccountId : string; b_toAccountId : string; b_toAccount : string; b_amount : Z;
  b_transferId : string; b_code : string; b_note : string }.

(** The values the environment supplies while one request is served. *)
Record Draws := mkDraws {
  d_userSfx : string; d_acctSfx : string; d_tokenSfx : string; d_numDraw : Z;
  d_transferSfx : string; d_now : Z; d_otpDraw : Z;
  d_receiptSfx : string; d_txNow : Z; d_receiptNow : Z; d_reference : string }.

(** [path.replace(/^\/+/, "")] *)
Fixpoint stripLeadingSlashes (path : string) : string :=
  match path with
  | String "/" rest => stripLeadingSlashes rest
  | _ => path
  end.

(** The [switch (true)] of [routeMockRequest]: the first case whose test
    holds, in the order of the source.  [accountIdOf] stands for
    [new URL("https://demo.local/" + normalizedPath).searchParams.get("accountId")],
    with the empty string for [null]. *)
Definition routeOf (accountIdOf : string → string) (path method : string) (body : Body)
    (authToken : string) (d : Draws) : Call :=
  let normalizedPath := stripLeadingSlashes path in
  if bool_decide (normalizedPath = "auth/register") && bool_decide (method = "POST") then
    Register (b_email body) (b_password body) (b_name body)
             (d_userSfx d) (d_acctSfx d) (d_tokenSfx d) (d_numDraw d)
  else if bool_decide (normalizedPath = "auth/login") && bool_decide (method = "POST") then
    Login (b_email body) (b_password body) (d_tokenSfx d)
  else if bool_decide (normalizedPath = "auth/me") && bool_decide (method = "GET") then
    Me authToken
  else if bool_decide (normalizedPath = "accounts") && bool_decide (method = "GET") then
    Accounts authToken
  else if String.prefix "transactions" normalizedPath && bool_decide (method = "GET") then
    Transactions authToken (accountIdOf normalizedPath)
  else if bool_decide (normalizedPath = "transfer/initiate") && bool_decide (method = "POST") then
    Initiate authToken (b_fromAccountId body) (b_toAccountId body) (b_amount body)
             (d_transferSfx d) (d_now d)
  else if bool_decide (normalizedPath = "transfer/send-otp") && bool_decide (method = "POST") then
    SendOtp authToken (b_transferId body) (d_otpDraw d) (d_now d)
  else if bool_decide (normalizedPath = "transfer/verify-otp") && bool_decide (method = "POST") then
    VerifyOtp authToken (b_transferId body) (b_code body) (d_now d)
  else if bool_decide (normalizedPath = "transfer/confirm") && bool_decide (method = "POST") then
    Confirm authToken (b_transferId body) (b_note body)
            (d_receiptSfx d) (d_txNow d) (d_receiptNow d) (d_reference d)
  else Unknown.

(** [routeMockRequest({ path, method, body, authToken })] *)
Definition routeMockRequestAt (accountIdOf : string → string) (path method : string)
    (body : Body) (authToken : string) (d : Draws) : M Response :=
  routeMockRequest (routeOf accountIdOf path method body authToken d).

(** The (path, method) pairs the router matches exactly. *)
Definition exactRoutes : list (string * string) :=
  [ ("auth/register", "POST"); ("auth/login", "POST"); ("auth/me", "GET");
    ("accounts", "GET"); ("transfer/initiate", "POST"); ("transfer/send-otp", "POST");
    ("transfer/verify-otp", "POST"); ("transfer/confirm", "POST") ].

(** ** The transfer page (js/transfer.js) *)

(** What the submit handler of the transfer form does with the values it has
    read from the form: it shows a toast and stops, or it sends a request. *)
Inductive Submit :=
  | Toast (message : string)
  | Send (path method : string) (body : Body).

(** The submit handler from the point where the form values are in hand:
    [fromAccountId] is [fromSelect.value], [destinationId] is
    [toSelect?.value || ""], [externalAccount] and [note] are the trimmed
    inputs, [amount] is [Number(amountInput?.value || 0)] with [None] for a
    value that is not finite, and [accts] is the list the page loaded from
    [/accounts]. *)
Definition submitTransfer (fromAccountId destinationId externalAccount : string)
    (amount : option Z) (note : string) (accts : list Account.t) : Submit :=
  if negb (truthy fromAccountId) then
    Toast "Please select the account to transfer from."
  else if negb (truthy destinationId) && negb (truthy externalAccount) then
    Toast "Please select an internal account or enter an external account."
  else
    match amount with
    | None => Toast "Please enter a valid amount greater than 0."
    | Some amount =>
        if amount <=? 0 then Toast "Please enter a valid amount greater than 0."
        else
          match find (hasId fromAccountId) accts with
          | None => Toast "The selected source account is unavailable."
          | Some (_, fromAccount) =>
              if amount >? Account.balance fromAccount then
                Toast "Cannot transfer more than the available balance."
              else
                Send "/transfers" "POST"
                  (mkBody "" "" "" fromAccountId
                     (if truthy destinationId then destinationId else "")
                     (if truthy destinationId then "" else externalAccount)
                     amount "" "" note)
          end
    end.

(** ** The shape of an error *)

(** The object [handleFailure] throws and the body the backend error handler
    sends: [{ errorCode, message, requestId }]. *)
Record ErrorShape := mkErrorShape {
  e_errorCode : string; e_message : string; e_requestId : string }.

(** [makeReferenceCode()]: [r1] and [r2] stand for the two draws
    [Math.random().toString(36).substring(2, 6).toUpperCase()]. *)
Definition makeReferenceCode (r1 r2 : string) : string :=
  "REF-" +:+ r1 +:+ "-" +:+ r2.

(** The error [handleFailure(errorLike)] throws; [None] is a [null] or
    [undefined] argument and an empty field is an absent one. *)
Definition normalizedError (errorLike : option ErrorShape) (r1 r2 : string) : ErrorShape :=
  let reference := orElse (from_option e_requestId "" errorLike) (makeReferenceCode r1 r2) in
  mkErrorShape
    (orElse (from_option e_errorCode "" errorLike) "CONTACT_OFFICER")
    (orElse (from_option e_message "" errorLike) "Something went wrong. Please contact support.")
    reference.

(** The [catch] of [apiRequest], for a thrown object [error] (an absent
    field is the empty string): an error that carries an [errorCode] is
    thrown on as it is, any other goes through
    [handleFailure({ message: error.message || "Unexpected error" })]. *)
Definition apiRequestCatch (error : ErrorShape) (r1 r2 : string) : ErrorShape :=
  if truthy (e_errorCode error) then error
  else normalizedError
         (Some (mkErrorShape "" (orElse (e_message error) "Unexpected error") "")) r1 r2.

(** ** The backend error handler (03-backend-api/src/middleware/errorHandler.js) *)

Module Backend.

(** The error passed to the middleware: [status], [code] and [message], with
    0 and the empty string for absent fields. *)
Record Err := mkErr { status : Z; code : string; message : string }.

(** The request: [req.requestId] and [req.headers['x-request-id']]. *)
Record Req := mkReq { requestId : string; xRequestId : string }.

(** What [res.status(status).json(...)] sends. *)
Record Res := mkRes { sentStatus : Z; sentBody : ErrorShape }.

(** [createRequestId()]: [now] is [Date.now()] and [hex] stands for
    [Math.random().toString(16).slice(2, 8)]. *)
Definition createRequestId (now : Z) (hex : string) : string :=
  "req_" +:+ toString now +:+ "_" +:+ hex.

(** [errorHandler(err, req, res, _next)]: the request with its [requestId]
    set, and the response sent. *)
Definition errorHandler (err : Err) (req : Req) (now : Z) (hex : string) : Req * Res :=
  let requestId' := orElse (requestId req) (orElse (xRequestId req) (createRequestId now hex)) in
  let status' := if truthyNum (status err) then status err else 500 in
  let errorCode := orElse (code err) "INTERNAL_ERROR" in
  let message' := orElse (message err) "Something went wrong." in
  (mkReq requestId' (xRequestId req),
   mkRes status' (mkErrorShape errorCode message' requestId')).

End Backend.

(** ** Masking an account number (js/ui/formatters.js) *)

(** In this module a JavaScript string is the list of its UTF-16 code units,
    since the mask character is not an ASCII one. *)
Module formatters.

(** "•", U+2022, and the space. *)
Definition bullet : N := 8226%N.
Definition space : N := 32%N.

(** [\d] and its complement [\D]. *)
Definition isDigitUnit (c : N) : bool := ((48 <=? c) && (c <=? 57))%N.

(** The code units [.] does not match: the line terminators. *)
Definition isLineTerminator (c : N) : bool :=
  ((c =? 10) || (c =? 13) || (c =? 8232) || (c =? 8233))%N.

(** The code units [trim] removes: white space and line terminators. *)
Definition isWhiteSpace (c : N) : bool :=
  ((c =? 9) || (c =? 11) || (c =? 12) || (c =? 32) || (c =? 160) || (c =? 5760)
   || ((8192 <=? c) && (c <=? 8202)) || (c =? 8239) || (c =? 8287) || (c =? 12288)
   || (c =? 65279) || isLineTerminator c)%N.

Definition flush (cur : list N) : list (list N) :=
  match cur with [] => [] | _ => [cur] end.

(** [str.match(/.{1,4}/g)]: the successive matches, each the longest run of
    up to four code units that are no line terminators; [cur] is the match
    being built.  The empty list stands for [null]. *)
Fixpoint matchGroups (cur : list N) (str : list N) : list (list N) :=
  match str with
  | [] => flush cur
  | c :: rest =>
      if isLineTerminator c then (flush cur ++ matchGroups [] rest)%list
      else if (List.length cur =? 3)%nat then (cur ++ [c])%list :: matchGroups [] rest
      else matchGroups (cur ++ [c])%list rest
  end.

(** [groups.join(" ")] *)
Fixpoint join (groups : list (list N)) : list N :=
  match groups with
  | [] => []
  | [g] => g
  | g :: gs => (g ++ space :: join gs)%list
  end.

Fixpoint trimStart (str : list N) : list N :=
  match str with
  | c :: rest => if isWhiteSpace c then trimStart rest else str
  | [] => []
  end.

(** [str.trim()] *)
Definition trim (str : list N) : list N := rev (trimStart (rev (trimStart str))).

Definition maskAccountNumber (str : list N) : list N :=
  match str with
  | [] => replicate 4 bullet
  | _ =>
      let digits := List.filter isDigitUnit str in
      let last4 := drop (List.length digits - 4) digits in
      let maskedPart := replicate (List.length digits - List.length last4) bullet in
      let joined := join (matchGroups [] (maskedPart ++ last4)%list) in
      let combined := match joined with [] => (maskedPart ++ last4)%list | _ => joined end in
      trim combined
  end.

(** A string without its spaces. *)
Definition unspaced (str : list N) : list N :=
  List.filter (λ c, negb (c =? space)%N) str.

(** A code unit that [.] matches and [trim] keeps, as bullets and digits
    are. *)
Definition plain (c : N) : Prop := isLineTerminator c = false ∧ isWhiteSpace c = false.

(** A code unit that is the space if it is white space at all. *)
Definition tidy (c : N) : Prop := isWhiteSpace c = true → c = space.

End formatters.


(** ** The later error handler (the middleware after index.js) *)

Module Middleware.

(** The error: [status], [statusCode], [errorCode] and [message], with 0 and
    the empty string for absent fields. *)
Record Err := mkErr {
  status : Z; statusCode : Z; errorCode : string; message : string }.

(** What the middleware does: it hands the error to [next], or it sends a
    status and a body. *)
Inductive Outcome :=
  | Delegated (err : Err)
  | Sent (status : Z) (body : ErrorShape).

(** [randomId()]: [r] stands for
    [Math.random().toString(36).slice(2, 8).toUpperCase()]. *)
Definition randomId (r : string) : string := "REQ-" +:+ r.

(** [a || b] on numbers. *)
Definition orNum (a b : Z) : Z := if truthyNum a then a else b.

(** [errorHandler(err, req, res, next)]; [headersSent] is [res.headersSent],
    a [req] of [None] is a missing request, and its two fields are
    [req.requestId] and [req.headers["x-request-id"]]. *)
Definition errorHandler (headersSent : bool) (err : Err) (req : option (string * string))
    (r : string) : Outcome :=
  if headersSent then Delegated err
  else
    let status' := orNum (status err) (orNum (statusCode err) 500) in
    let requestId :=
      orElse (from_option (λ q, orElse (fst q) (snd q)) "" req) (randomId r) in
    let errorCode' :=
      orElse (errorCode err)
        (orElse (if bool_decide (status' = 401) then "UNAUTHORIZED" else "")
           (orElse (if bool_decide (status' = 403) then "FORBIDDEN" else "")
              (orElse (if bool_decide (status' = 404) then "NOT_FOUND" else "")
                 (orElse (if bool_decide (status' = 400) then "VALIDATION_ERROR" else "")
                    "CONTACT_OFFICER")))) in
    let message' :=
      orElse (message err)
        (if status' >=? 500
         then "Something went wrong. Please contact your account officer."
         else "Request failed.") in
    Sent status' (mkErrorShape errorCode' message' requestId).

End Middleware.

(** ** The in-memory database of the backend (03-backend-api/src/db/memoryDb.js) *)

Module memoryDb.

(** A record is an object with string fields; a collection is an array of
    records. *)
Abbreviation Item := (gmap string string).

(** [createId(prefix)]: [now] is [Date.now()] and [hex] stands for
    [Math.random().toString(16).slice(2, 8)]. *)
Definition createId (prefix : string) (now : Z) (hex : string) : string :=
  prefix +:+ "_" +:+ toString now +:+ "_" +:+ hex.

Definition hasId (id : string) (entry : Item) : bool :=
  bool_decide (entry !! "id" = Some id).

(** [addItem(collection, prefix, item)]: the record is
    [{ id: createId(prefix), ...item }], so a field [id] of [item] replaces
    the generated one.  Returns the collection and the record. *)
Definition addItem (collection : list Item) (prefix : string) (item : Item)
    (now : Z) (hex : string) : list Item * Item :=
  let record := item ∪ {[ "id" := createId prefix now hex ]} in
  ((collection ++ [record])%list, record).

(** [findItem(collection, id)] *)
Definition findItem (collection : list Item) (id : string) : option Item :=
  snd <$> find (hasId id) collection.

(** [updateItem(collection, id, updates)]: [Object.assign(item, updates)] on
    the record found, in place. *)
Definition updateItem (collection : list Item) (id : string) (updates : Item)
    : list Item * option Item :=
  match find (hasId id) collection with
  | None => (collection, None)
  | Some (i, item) => (<[i := updates ∪ item]> collection, Some (updates ∪ item))
  end.

(** [removeItem(collection, id)]: [splice(index, 1)] at the first index whose
    record has the id. *)
Definition removeItem (collection : list Item) (id : string) : list Item * bool :=
  match find (hasId id) collection with
  | None => (collection, false)
  | Some (i, _) => (delete i collection, true)
  end.

End memoryDb.

(** * Properties *)

(** ** The store monad and the JavaScript helpers *)

(** Unfolding the monad: [unfold_endpoint] exposes the case analysis an
    endpoint performs, [unfold_store] also simplifies it. *)
Ltac unfold_endpoint :=
  unfold bind, getState, failIf, handleFailure, ret, updTransfer, setAccountAt, modify.

Ltac unfold_store :=
  unfold bind, ret, getState, modify, failIf, handleFailure, updTransfer,
    setAccountAt, mapResult in *;
  simpl in *.

(** The router hands the store of the endpoint on. *)
Lemma snd_mapResult {A B} (f : A → B) (c : M A) s : snd (mapResult f c s) = snd (c s).
Proof. unfold mapResult, bind, ret. by destruct (c s) as [[?|?] ?]. Qed.

Lemma find_Some {A} (p : A → bool) (l : list A) i x :
  find p l = Some (i, x) → l !! i = Some x ∧ p x = true.
Proof. unfold find. intros H. apply list_find_Some in H. tauto. Qed.

Lemma find_elem {A} (p : A → bool) (l : list A) x :
  x ∈ l → p x = true → is_Some (find p l).
Proof. intros Hin Hp. unfold find. by eapply list_find_elem_of. Qed.

Lemma find_insert_same_key {A} (p : A → bool) (l : list A) i x y :
  l !! i = Some x → p y = p x → find p (<[i := y]> l) =
    match find p l with
    | Some (j, z) => Some (j, if decide (j = i) then y else z)
    | None => None
    end.
Proof.
  revert i. induction l as [|a l IH]; intros i Hi Hp; [done|].
  destruct i as [|i]; simpl in *.
  - injection Hi as ->. unfold find. cbn. rewrite Hp.
    destruct (decide (p x = true)) as [Hx|Hx]; cbn; [done|].
    destruct (list_find _ l) as [[j z]|]; cbn; done.
  - unfold find in *. cbn. destruct (decide (p a = true)); cbn; [done|].
    rewrite (IH i Hi Hp). destruct (list_find _ l) as [[j z]|]; cbn; [|done].
    f_equal. f_equal. destruct (decide (j = i)), (decide (S j = S i)); done || lia.
Qed.

(** ** Authentication is a read *)

Lemma requireAuth_pure authToken s :
  requireAuth authToken s = (fst (requireAuth authToken s), s).
Proof.
  unfold requireAuth. unfold_store.
  repeat case_match; done.
Qed.

(** Case analysis on the outcome of the authentication of [authToken]. *)
Ltac auth_cases authToken s :=
  rewrite (requireAuth_pure authToken s);
  destruct (fst (requireAuth authToken s)) as [?user|?e]; cbn [fst snd].

Lemma requireAuth_err authToken s e :
  fst (requireAuth authToken s) = Err e → e = UNAUTHORIZED.
Proof.
  unfold requireAuth. unfold_store.
  repeat case_match; simpl; congruence.
Qed.

(** ** Registration *)

(** C9. Registering with an e-mail address that a stored user already has
    fails and leaves the whole store as it was (no user, no account and no
    token is added); the error is EMAIL_IN_USE whenever e-mail and password
    are both present, and VALIDATION otherwise. *)
Theorem register_email_in_use :
  ∀ (s : MockState) (u : User.t) (email password name userSfx acctSfx tokenSfx : string)
    (numDraw : Z),
    u ∈ users s →
    User.email u = email →
    let out := mockAuth.register email password name userSfx acctSfx tokenSfx numDraw s in
    snd out = s ∧
    (truthy email = true → truthy password = true → fst out = Err EMAIL_IN_USE) ∧
    (truthy email && truthy password = false → fst out = Err VALIDATION).
Proof.
  intros s u email password name userSfx acctSfx tokenSfx numDraw Hin Hemail out.
  subst out. unfold mockAuth.register. unfold_store.
  assert (Hfound : bool_decide
            (is_Some (find (λ u0, bool_decide (User.email u0 = email)) (users s))) = true).
  { apply bool_decide_eq_true. eapply find_elem; [exact Hin|]. by apply bool_decide_eq_true. }
  destruct (truthy email), (truthy password); simpl; rewrite ?Hfound; simpl;
    repeat split; intros; congruence.
Qed.

Lemma register_email_in_use_witness :
  let s := mockState 0 in
  snd (mockAuth.register "demo@bank.test" "secret" "Eve" "u00001" "a00001" "t00001" 42 s) = s ∧
  fst (mockAuth.register "demo@bank.test" "secret" "Eve" "u00001" "a00001" "t00001" 42 s)
    = Err EMAIL_IN_USE.
Proof.
  intros s.
  pose proof (register_email_in_use s
    (User.mk "user-1" "demo@bank.test" "password123" "Demo Customer")
    "demo@bank.test" "secret" "Eve" "u00001" "a00001" "t00001" 42) as H.
  simpl in H.
  destruct H as (Hs & He & _); [apply list_elem_of_here | reflexivity |].
  split; [exact Hs | apply He; reflexivity].
Defined.

(** ** Initiation *)

(** Whenever [initiate] throws INSUFFICIENT_FUNDS, the caller is signed in,
    the source account resolves, the amount exceeds its balance and the store
    is untouched. *)
Lemma initiate_insufficient_inv authToken fromAccountId toAccountId amount sfx now s :
  fst (mockTransfer.initiate authToken fromAccountId toAccountId amount sfx now s)
    = Err INSUFFICIENT_FUNDS →
  ∃ user i acct,
    requireAuth authToken s = (Ok user, s) ∧
    find (ownedBy fromAccountId user) (accounts s) = Some (i, acct) ∧
    amount > Account.balance acct ∧
    snd (mockTransfer.initiate authToken fromAccountId toAccountId amount sfx now s) = s.
Proof.
  unfold mockTransfer.initiate. unfold_store.
  rewrite (requireAuth_pure authToken s).
  destruct (fst (requireAuth authToken s)) as [user|e] eqn:Hauth; simpl.
  2:{ intros [= ->]. by apply requireAuth_err in Hauth. }
  destruct (negb (truthy fromAccountId) || negb (truthy toAccountId) || negb (truthyNum amount));
    simpl; [done|].
  destruct (find (ownedBy fromAccountId user) (accounts s)) as [[i acct]|] eqn:Hfind; simpl; [|done].
  destruct (amount >? Account.balance acct) eqn:Hgt; simpl; [|done].
  intros _. exists user, i, acct. repeat split; try done. lia.
Qed.

(** [initiate] once the caller is signed in, both account ids are present
    and the source account resolves. *)
Lemma initiate_eq authToken fromAccountId toAccountId amount sfx now s user i acct :
  requireAuth authToken s = (Ok user, s) →
  truthy fromAccountId = true → truthy toAccountId = true →
  find (ownedBy fromAccountId user) (accounts s) = Some (i, acct) →
  mockTransfer.initiate authToken fromAccountId toAccountId amount sfx now s =
    if truthyNum amount then
      if amount >? Account.balance acct then (Err INSUFFICIENT_FUNDS, s)
      else (Ok (makeId "transfer" sfx, PENDING_OTP),
            setTransfers s
              (<[makeId "transfer" sfx :=
                   Transfer.mk (makeId "transfer" sfx) (User.id user) fromAccountId toAccountId
                               amount PENDING_OTP None now]> (transfers s)))
    else (Err VALIDATION, s).
Proof.
  intros Hauth Hfrom Hto Hfind. unfold mockTransfer.initiate.
  unfold bind, getState, failIf, handleFailure, ret, updTransfer, modify.
  rewrite Hauth, Hfrom, Hto. cbn [negb orb].
  destruct (truthyNum amount); cbn [negb]; [|done].
  rewrite Hfind. by destruct (amount >? Account.balance acct).
Qed.

(** C5, as stated, fails for the amount zero on an overdrawn account: in
    [overdrawnStore], a store the seeded one reaches through the router, the
    savings account holds -674965, so the requested amount 0 is strictly
    greater than the balance of the source; [initiate] throws VALIDATION and
    not INSUFFICIENT_FUNDS, and stores nothing. *)
Lemma initiate_zero_above_negative_balance :
  reachable overdrawnStore ∧
  find (ownedBy "acct-2" demoUser) (accounts overdrawnStore) =
    Some (1%nat, Account.mk "acct-2" "user-1" "Savings Vault" "9876543210" (-674965) "USD") ∧
  0 > -674965 ∧
  mockTransfer.initiate "token-tok001" "acct-2" "acct-1" 0 "zero01" 100000006 overdrawnStore
    = (Err VALIDATION, overdrawnStore).
Proof.
  split.
  { exists 100000000,
      (Login "demo@bank.test" "password123" "tok001" ::
       transferCalls "token-tok001" "acct-1" "acct-2" (-2000000) "neg001"
         100000001 23456 100000002 100000003 "" "rcp001" 100000004 100000005 "REF-AAAA-BBBB").
    reflexivity. }
  split; [by vm_compute|]. split; [lia|]. by vm_compute.
Qed.

(** C5, amended. For a signed-in caller who names a source account of their
    own and a destination, [initiate] throws INSUFFICIENT_FUNDS exactly when
    the amount is not zero and is strictly greater than the balance of the
    source account; the store, and so the [transfers] map, is then unchanged.
    The amount zero is refused with VALIDATION whatever the balance, and the
    store is unchanged as well.  Any other amount (the balance itself
    included) returns PENDING_OTP and stores the new transfer. *)
Theorem initiate_insufficient_funds :
  ∀ (s : MockState) (authToken fromAccountId toAccountId : string) (amount : Z)
    (sfx : string) (now : Z) (user : User.t) (i : nat) (acct : Account.t),
    requireAuth authToken s = (Ok user, s) →
    truthy fromAccountId = true → truthy toAccountId = true →
    find (ownedBy fromAccountId user) (accounts s) = Some (i, acct) →
    let out := mockTransfer.initiate authToken fromAccountId toAccountId amount sfx now s in
    (fst out = Err INSUFFICIENT_FUNDS ↔ amount ≠ 0 ∧ amount > Account.balance acct) ∧
    (amount ≠ 0 → amount > Account.balance acct → out = (Err INSUFFICIENT_FUNDS, s)) ∧
    (amount = 0 → out = (Err VALIDATION, s)) ∧
    (amount ≠ 0 → amount ≤ Account.balance acct →
       fst out = Ok (makeId "transfer" sfx, PENDING_OTP) ∧
       snd out = setTransfers s
         (<[makeId "transfer" sfx :=
              Transfer.mk (makeId "transfer" sfx) (User.id user) fromAccountId toAccountId
                          amount PENDING_OTP None now]> (transfers s))).
Proof.
  intros s authToken fromAccountId toAccountId amount sfx now user i acct
    Hauth Hfrom Hto Hfind out.
  subst out. rewrite (initiate_eq _ _ _ _ _ _ _ _ _ _ Hauth Hfrom Hto Hfind).
  destruct (decide (amount = 0)) as [->|Hamt].
  { change (truthyNum 0) with false. cbv iota. cbn [fst snd].
    repeat split; try done; try (intros; lia); by intros [? _]. }
  assert (HtN : truthyNum amount = true) by (by apply bool_decide_eq_true).
  rewrite HtN.
  destruct (Z.gtb_spec amount (Account.balance acct)); cbn [fst snd].
  - repeat split; try done; intros; lia.
  - repeat split; try done; try (intros; lia); intros [_ ?]; lia.
Qed.

Lemma initiate_insufficient_funds_witness :
  mockTransfer.initiate "token-tok001" "acct-1" "acct-2" 428076 "abc123" 100000001 demoStore
    = (Err INSUFFICIENT_FUNDS, demoStore) ∧
  fst (mockTransfer.initiate "token-tok001" "acct-1" "acct-2" 428075 "abc123" 100000001 demoStore)
    = Ok ("transfer-abc123", PENDING_OTP) ∧
  mockTransfer.initiate "token-tok001" "acct-1" "acct-2" 0 "abc123" 100000001 demoStore
    = (Err VALIDATION, demoStore).
Proof.
  pose proof (λ amount, initiate_insufficient_funds demoStore "token-tok001" "acct-1" "acct-2"
    amount "abc123" 100000001
    (User.mk "user-1" "demo@bank.test" "password123" "Demo Customer") 0%nat
    (Account.mk "acct-1" "user-1" "Everyday Checking" "1234567890" 428075 "USD")
    eq_refl eq_refl eq_refl eq_refl) as H.
  split; [|split].
  - apply (H 428076); simpl; lia.
  - apply (H 428075); simpl; lia.
  - by apply (H 0).
Defined.

(** ** The one-time passcode *)

(** Authentication reads [tokens] and [users] only. *)
Lemma requireAuth_frame authToken s s' user :
  tokens s' = tokens s → users s' = users s →
  requireAuth authToken s = (Ok user, s) → requireAuth authToken s' = (Ok user, s').
Proof.
  intros Htok Husers. unfold requireAuth. unfold_store. rewrite Htok, Husers.
  repeat case_match; simpl; congruence.
Qed.

Lemma sendOtp_eq authToken transferId draw now s user t :
  requireAuth authToken s = (Ok user, s) →
  transfers s !! transferId = Some t →
  mockTransfer.sendOtp authToken transferId draw now s =
    (Ok (toString (100000 + draw)),
     setTransfers s (<[transferId :=
         Transfer.setOtp t (Some (Otp.mk (toString (100000 + draw)) 0 (now + 300000)))]>
       (transfers s))).
Proof.
  intros Hauth Ht. unfold mockTransfer.sendOtp. unfold_store.
  by rewrite Hauth, Ht.
Qed.

Lemma verifyOtp_eq authToken transferId code now s user t o :
  requireAuth authToken s = (Ok user, s) →
  transfers s !! transferId = Some t →
  Transfer.otp t = Some o →
  mockTransfer.verifyOtp authToken transferId code now s =
    if Otp.expiresAt o <? now then (Err OTP_EXPIRED, s)
    else if Otp.attempts o >=? 5 then (Err OTP_LOCKED, s)
    else if bool_decide (Otp.code o ≠ code) then
      (Err OTP_INVALID,
       setTransfers s (<[transferId := Transfer.setOtp t (Some (Otp.bumpAttempts o))]>
                         (transfers s)))
    else
      (Ok VERIFIED,
       setTransfers s (<[transferId := Transfer.setStatus t VERIFIED]> (transfers s))).
Proof.
  intros Hauth Ht Ho. unfold mockTransfer.verifyOtp.
  unfold bind, getState, failIf, handleFailure, ret, updTransfer, modify.
  rewrite Hauth, Ht, Ho.
  destruct (Otp.expiresAt o <? now); [done|].
  destruct (Otp.attempts o >=? 5); [done|].
  destruct (bool_decide (Otp.code o ≠ code)); done.
Qed.

(** The passcode is a string of six decimal digits. *)
Lemma digitChar_isDigit d : 0 ≤ d < 10 → isDigit (digitChar d) = true.
Proof.
  intros Hd. unfold isDigit, digitChar.
  rewrite nat_ascii_embedding by lia.
  apply andb_true_iff. split; apply Nat.leb_le; lia.
Qed.

Lemma toStringAux_digits fuel n acc :
  0 ≤ n → allDigits acc = true → allDigits (toStringAux fuel n acc) = true.
Proof.
  revert n acc. induction fuel as [|fuel IH]; intros n acc Hn Hacc; cbn [toStringAux]; [done|].
  assert (Hd : allDigits (String (digitChar (n mod 10)) acc) = true).
  { cbn [allDigits]. rewrite digitChar_isDigit, Hacc; [done|]. apply Z.mod_pos_bound. lia. }
  destruct (n <? 10); [done|].
  apply IH; [|done]. apply Z.div_pos; lia.
Qed.

Lemma toStringAux_length (k fuel : nat) n acc :
  (k < fuel)%nat → 10 ^ Z.of_nat k ≤ n < 10 ^ Z.of_nat (S k) →
  String.length (toStringAux fuel n acc) = (S k + String.length acc)%nat.
Proof.
  revert fuel n acc. induction k as [|k IH]; intros fuel n acc Hfuel Hn.
  - destruct fuel as [|fuel]; [lia|]. cbn [toStringAux String.length].
    change (10 ^ Z.of_nat 0) with 1 in Hn. change (10 ^ Z.of_nat 1) with 10 in Hn.
    destruct (Z.ltb_spec n 10); [done | lia].
  - destruct fuel as [|fuel]; [lia|]. cbn [toStringAux].
    rewrite !Nat2Z.inj_succ, !Z.pow_succ_r in Hn by lia.
    assert (0 < 10 ^ Z.of_nat k) by (apply Z.pow_pos_nonneg; lia).
    destruct (Z.ltb_spec n 10); [nia|].
    rewrite IH; [cbn [String.length]; lia | lia |].
    rewrite Nat2Z.inj_succ, Z.pow_succ_r by lia.
    split.
    + apply Z.div_le_lower_bound; lia.
    + apply Z.div_lt_upper_bound; lia.
Qed.

Lemma otpCode_six_digits draw :
  0 ≤ draw < 900000 →
  String.length (toString (100000 + draw)) = 6%nat ∧
  allDigits (toString (100000 + draw)) = true.
Proof.
  intros Hd. unfold toString. split.
  - rewrite (toStringAux_length 5); [done| |simpl; lia].
    assert (16 ≤ Z.log2 (100000 + draw)).
    { change 16 with (Z.log2 65536). apply Z.log2_le_mono. lia. }
    lia.
  - apply toStringAux_digits; [lia | done].
Qed.




(** C4, as stated, fails: the five wrong passcodes of [lockedStore] are each
    answered with OTP_INVALID and leave the counter at 5, so that even the
    right passcode is answered with OTP_LOCKED; but once the expiry has
    passed the answer is OTP_EXPIRED, and after a second [sendOtp] the next
    [verifyOtp] for the same transfer succeeds. *)
Lemma verifyOtp_after_resend_succeeds :
  (∀ k, (k < 5)%nat →
     fst (mockTransfer.verifyOtp "token-tok001" "transfer-abc123" "000000" 100000003
            (serve (replicate k (VerifyOtp "token-tok001" "transfer-abc123" "000000" 100000003))
                   otpStore)) = Err OTP_INVALID) ∧
  fst (mockTransfer.verifyOtp "token-tok001" "transfer-abc123" "123456" 100000003 lockedStore)
    = Err OTP_LOCKED ∧
  fst (mockTransfer.verifyOtp "token-tok001" "transfer-abc123" "123456" 100300003 lockedStore)
    = Err OTP_EXPIRED ∧
  fst (mockTransfer.verifyOtp "token-tok001" "transfer-abc123" "654321" 100000005 resentStore)
    = Ok VERIFIED.
Proof.
  split; [|repeat split; reflexivity].
  intros k Hk.
  destruct k as [|[|[|[|[|k]]]]]; try reflexivity. lia.
Qed.

(** C4, amended. Once the failed code comparisons counted against the
    current challenge of a transfer have reached five, every [verifyOtp] of a
    signed-in caller made before the expiry has passed, and before [sendOtp]
    replaces the challenge, fails with OTP_LOCKED whether or not the submitted
    code is the stored one, and leaves the store as it was: the lock is
    checked before the codes are compared. *)
Theorem otp_locked_after_five :
  ∀ (tries : list (string * Z)) (s : MockState) (authToken transferId : string)
    (user : User.t) (t : Transfer.t) (o : Otp.t) (code : string) (now : Z),
    requireAuth authToken s = (Ok user, s) →
    transfers s !! transferId = Some t →
    Transfer.otp t = Some o →
    Forall (λ p, fst p ≠ Otp.code o ∧ snd p ≤ Otp.expiresAt o) tries →
    5 ≤ Otp.attempts o + Z.of_nat (length tries) →
    now ≤ Otp.expiresAt o →
    let s' := serve (verifyCalls authToken transferId tries) s in
    mockTransfer.verifyOtp authToken transferId code now s' = (Err OTP_LOCKED, s').
Proof.
  induction tries as [|[c n] tries IH];
    intros s authToken transferId user t o code now Hauth Ht Ho Hall Hcount Hnow.
  - cbn [length Z.of_nat] in Hcount. unfold verifyCalls, serve.
    cbn [fmap list_fmap foldl]. rewrite (verifyOtp_eq _ _ _ _ _ _ _ _ Hauth Ht Ho).
    destruct (Z.ltb_spec (Otp.expiresAt o) now); [lia|].
    destruct (Z.geb_spec (Otp.attempts o) 5); [done | lia].
  - apply Forall_cons in Hall as [[Hc Hn] Hall]. cbn [fst snd] in Hc, Hn.
    unfold verifyCalls, serve in *. cbn [fmap list_fmap foldl fst snd].
    cbn [routeMockRequest].
    rewrite snd_mapResult, (verifyOtp_eq _ _ _ _ _ _ _ _ Hauth Ht Ho).
    destruct (Z.ltb_spec (Otp.expiresAt o) n); [lia|].
    destruct (Z.geb_spec (Otp.attempts o) 5) as [Hge|Hlt]; cbn [snd].
    + eapply IH; eauto. lia.
    + rewrite bool_decide_eq_true_2 by done. cbn [snd].
      eapply (IH _ _ _ user _ (Otp.bumpAttempts o)).
      * by apply (requireAuth_frame _ s).
      * cbn. apply lookup_insert_eq.
      * done.
      * done.
      * cbn [Otp.bumpAttempts Otp.attempts length] in *. lia.
      * done.
Qed.

Lemma otp_locked_after_five_witness :
  mockTransfer.verifyOtp "token-tok001" "transfer-abc123" "123456" 100000003 lockedStore
    = (Err OTP_LOCKED, lockedStore).
Proof.
  refine (otp_locked_after_five (replicate 5 ("000000", 100000003)) otpStore
            "token-tok001" "transfer-abc123" demoUser
            (Transfer.mk "transfer-abc123" "user-1" "acct-1" "acct-2" 5000 PENDING_OTP
               (Some (Otp.mk "123456" 0 100300002)) 100000001)
            (Otp.mk "123456" 0 100300002) "123456" 100000003
            eq_refl eq_refl eq_refl _ _ _).
  - repeat constructor; simpl; (discriminate || lia).
  - simpl. lia.
  - simpl. lia.
Defined.

(** ** Confirmation *)

Lemma confirm_eq authToken transferId note sfx txNow receiptNow reference s user t i fromAccount :
  requireAuth authToken s = (Ok user, s) →
  transfers s !! transferId = Some t →
  Transfer.status t = VERIFIED →
  find (ownedBy (Transfer.fromAccountId t) user) (accounts s) = Some (i, fromAccount) →
  Transfer.amount t ≤ Account.balance fromAccount →
  ∃ receipt,
    mockTransfer.confirm authToken transferId note sfx txNow receiptNow reference s
      = (Ok (transferId, receipt), confirmed s transferId t i fromAccount note sfx txNow).
Proof.
  intros Hauth Ht Hst Hfrom Hamt. unfold mockTransfer.confirm.
  unfold bind, getState, failIf, handleFailure, ret, updTransfer, setAccountAt, modify.
  rewrite Hauth, Ht, Hst. rewrite bool_decide_eq_false_2 by (intros ?; done).
  rewrite Hfrom.
  destruct (Z.gtb_spec (Transfer.amount t) (Account.balance fromAccount)); [lia|].
  cbn [accounts setAccounts]. unfold confirmed, credit, debit.
  destruct (find (hasId (Transfer.toAccountId t)) _) as [[j toAcct]|]; eexists; reflexivity.
Qed.

(** A successful [confirm] went through every guard. *)
Lemma confirm_ok_inv authToken transferId note sfx txNow receiptNow reference s :
  isOk (fst (mockTransfer.confirm authToken transferId note sfx txNow receiptNow reference s)) →
  ∃ user t i fromAccount,
    requireAuth authToken s = (Ok user, s) ∧
    transfers s !! transferId = Some t ∧
    Transfer.status t = VERIFIED ∧
    find (ownedBy (Transfer.fromAccountId t) user) (accounts s) = Some (i, fromAccount) ∧
    Transfer.amount t ≤ Account.balance fromAccount.
Proof.
  unfold mockTransfer.confirm.
  unfold bind, getState, failIf, handleFailure, ret, updTransfer, setAccountAt, modify.
  rewrite (requireAuth_pure authToken s).
  destruct (fst (requireAuth authToken s)) as [user|e]; [|done].
  destruct (transfers s !! transferId) as [t|]; [|done].
  destruct (decide (Transfer.status t = VERIFIED)) as [Hst|Hst].
  2:{ by rewrite bool_decide_eq_true_2. }
  rewrite bool_decide_eq_false_2 by (intros ?; done).
  destruct (find (ownedBy _ user) (accounts s)) as [[i fromAccount]|] eqn:Hfrom; [|done].
  destruct (Z.gtb_spec (Transfer.amount t) (Account.balance fromAccount)); [done|].
  intros _. by exists user, t, i, fromAccount.
Qed.


(** The sum of the two balances is not kept by the arithmetic of the code.
    On the seeded balances 4280.75 and 13250.35 and the amount 0.70, the debit
    and the credit of [confirm] leave two doubles whose sum is
    17531.100000000002, where the sum of the balances before is 17531.1; the
    rounded sums differ, so the exact sums of the stored doubles differ as
    well. *)
#[local] Set Warnings "-inexact-float".

Lemma confirm_sum_rounds :
  let fromBalance := 4280.75%float in
  let toBalance := 13250.35%float in
  let amount := 0.7%float in
  (Double.debit fromBalance amount + Double.credit toBalance amount
     =? fromBalance + toBalance)%float = false ∧
  (Double.debit fromBalance amount + Double.credit toBalance amount
     =? 17531.100000000002)%float = true ∧
  (fromBalance + toBalance =? 17531.1)%float = true.
Proof. vm_compute. repeat split. Qed.



(** C8. For every stored transfer, whatever its status and whatever challenge
    it carries, [sendOtp] of a signed-in caller succeeds and replaces the
    challenge by a fresh one: a code of six decimal digits, no attempts
    counted, expiry five minutes after the call.  The code it returns is then
    accepted by [verifyOtp] up to the new expiry, so a locked challenge is
    usable again. *)
Theorem sendOtp_replaces_challenge :
  ∀ (s : MockState) (authToken transferId : string) (user : User.t) (t : Transfer.t)
    (draw now : Z),
    requireAuth authToken s = (Ok user, s) →
    transfers s !! transferId = Some t →
    0 ≤ draw < 900000 →
    let code := toString (100000 + draw) in
    let s' := setTransfers s
                (<[transferId := Transfer.setOtp t (Some (Otp.mk code 0 (now + 5 * 60 * 1000)))]>
                   (transfers s)) in
    mockTransfer.sendOtp authToken transferId draw now s = (Ok code, s') ∧
    String.length code = 6%nat ∧ allDigits code = true ∧
    (∀ now', now' ≤ now + 5 * 60 * 1000 →
       fst (mockTransfer.verifyOtp authToken transferId code now' s') = Ok VERIFIED).
Proof.
  intros s authToken transferId user t draw now Hauth Ht Hdraw code s'.
  destruct (otpCode_six_digits draw Hdraw) as [Hlen Hdig].
  repeat split; try done.
  - by apply sendOtp_eq with (user := user).
  - intros now' Hnow'.
    assert (Hauth' : requireAuth authToken s' = (Ok user, s'))
      by (by apply (requireAuth_frame _ s)).
    erewrite (verifyOtp_eq _ _ _ _ s' _ _ _ Hauth'); [| apply lookup_insert_eq | done].
    cbn [Otp.expiresAt Otp.attempts Otp.code].
    destruct (Z.ltb_spec (now + 5 * 60 * 1000) now'); [lia|].
    change (0 >=? 5) with false. cbv iota.
    by rewrite bool_decide_eq_false_2 by (intros ?; done).
Qed.

Lemma sendOtp_replaces_challenge_witness :
  fst (mockTransfer.verifyOtp "token-tok001" "transfer-abc123" "123456" 100000003 lockedStore)
    = Err OTP_LOCKED ∧
  fst (mockTransfer.sendOtp "token-tok001" "transfer-abc123" 554321 100000004 lockedStore)
    = Ok "654321" ∧
  fst (mockTransfer.verifyOtp "token-tok001" "transfer-abc123" "654321" 100000005 resentStore)
    = Ok VERIFIED.
Proof.
  pose proof (sendOtp_replaces_challenge lockedStore "token-tok001" "transfer-abc123" demoUser
    (Transfer.mk "transfer-abc123" "user-1" "acct-1" "acct-2" 5000 PENDING_OTP
       (Some (Otp.mk "123456" 5 100300002)) 100000001)
    554321 100000004 eq_refl eq_refl) as H.
  destruct H as (Hsend & _ & _ & Hverify); [lia|].
  split; [reflexivity|]. split.
  - exact (f_equal fst Hsend).
  - apply (Hverify 100000005). lia.
Defined.

(** C7. [verifyOtp] never looks at the status of the transfer: for a stored
    transfer in any status, COMPLETED included, whose challenge is neither
    expired nor locked, the matching code sets the status to VERIFIED; and a
    [confirm] that follows, when the source account still resolves and holds
    the amount, debits and credits the accounts and appends a transaction
    once more. *)
Theorem verifyOtp_ignores_status :
  ∀ (s : MockState) (authToken transferId : string) (user : User.t) (t : Transfer.t)
    (o : Otp.t) (now : Z) (note sfx : string) (txNow receiptNow : Z) (reference : string)
    (i : nat) (fromAccount : Account.t),
    requireAuth authToken s = (Ok user, s) →
    transfers s !! transferId = Some t →
    Transfer.otp t = Some o →
    now ≤ Otp.expiresAt o →
    Otp.attempts o < 5 →
    find (ownedBy (Transfer.fromAccountId t) user) (accounts s) = Some (i, fromAccount) →
    Transfer.amount t ≤ Account.balance fromAccount →
    let s1 := setTransfers s (<[transferId := Transfer.setStatus t VERIFIED]> (transfers s)) in
    let out := mockTransfer.confirm authToken transferId note sfx txNow receiptNow reference s1 in
    mockTransfer.verifyOtp authToken transferId (Otp.code o) now s = (Ok VERIFIED, s1) ∧
    isOk (fst out) ∧
    accounts (snd out) =
      credit (Transfer.toAccountId t) (Transfer.amount t)
        (debit i fromAccount (Transfer.amount t) (accounts s)) ∧
    transactions (snd out) =
      (transactions s ++ [Transaction.mk (makeId "tx" sfx) (Account.id fromAccount)
                            (orElse note "Transfer") (- Transfer.amount t) txNow])%list ∧
    Transfer.status <$> transfers (snd out) !! transferId = Some COMPLETED.
Proof.
  intros s authToken transferId user t o now note sfx txNow receiptNow reference i fromAccount
    Hauth Ht Ho Hnow Hattempts Hfrom Hamt s1 out.
  split.
  - rewrite (verifyOtp_eq _ _ _ _ _ _ _ _ Hauth Ht Ho).
    destruct (Z.ltb_spec (Otp.expiresAt o) now); [lia|].
    destruct (Z.geb_spec (Otp.attempts o) 5); [lia|].
    by rewrite bool_decide_eq_false_2 by (intros ?; done).
  - assert (Hauth1 : requireAuth authToken s1 = (Ok user, s1))
      by (by apply (requireAuth_frame _ s)).
    destruct (confirm_eq authToken transferId note sfx txNow receiptNow reference s1 user
                (Transfer.setStatus t VERIFIED) i fromAccount Hauth1)
      as [receipt Heq]; [apply lookup_insert_eq | done | exact Hfrom | exact Hamt |].
    subst out. rewrite Heq. cbn [fst snd isOk]. unfold confirmed.
    cbn [accounts transactions transfers s1 setTransfers].
    repeat split. by rewrite lookup_insert_eq.
Qed.

Lemma verifyOtp_ignores_status_witness :
  Transfer.status <$> transfers completedStore !! "transfer-abc123" = Some COMPLETED ∧
  balanceAt completedStore 0 = Some (428075 - 5000) ∧
  let s1 := snd (mockTransfer.verifyOtp "token-tok001" "transfer-abc123" "123456" 100000006
                   completedStore) in
  let out := mockTransfer.confirm "token-tok001" "transfer-abc123" "" "rcp002"
               100000007 100000008 "REF-CCCC-DDDD" s1 in
  Transfer.status <$> transfers s1 !! "transfer-abc123" = Some VERIFIED ∧
  isOk (fst out) ∧
  balanceAt (snd out) 0 = Some (428075 - 5000 - 5000) ∧
  length (transactions (snd out)) = S (length (transactions completedStore)).
Proof.
  pose proof (verifyOtp_ignores_status completedStore "token-tok001" "transfer-abc123" demoUser
    (Transfer.mk "transfer-abc123" "user-1" "acct-1" "acct-2" 5000 COMPLETED
       (Some (Otp.mk "123456" 0 100300002)) 100000001)
    (Otp.mk "123456" 0 100300002) 100000006 "" "rcp002" 100000007 100000008 "REF-CCCC-DDDD"
    0%nat (Account.mk "acct-1" "user-1" "Everyday Checking" "1234567890" 423075 "USD")
    eq_refl eq_refl eq_refl) as H.
  destruct H as (Hverify & Hok & Haccts & Htxs & _); [simpl; lia | simpl; lia | reflexivity | simpl; lia |].
  split; [reflexivity|]. split; [reflexivity|].
  cbn [Otp.code] in Hverify. cbv zeta. rewrite Hverify. cbn [snd].
  split; [reflexivity|]. split; [exact Hok|].
  unfold balanceAt. rewrite Haccts, Htxs. split; [reflexivity|].
  rewrite length_app. cbn [length]. lia.
Defined.

(** C10, as stated, fails for the amount zero: the number 0 is falsy, so the
    presence check of [initiate] throws VALIDATION and stores no transfer. *)
Lemma initiate_zero_amount_rejected :
  mockTransfer.initiate "token-tok001" "acct-1" "acct-2" 0 "abc123" 100000001 demoStore
    = (Err VALIDATION, demoStore) ∧
  transfers (snd (mockTransfer.initiate "token-tok001" "acct-1" "acct-2" 0 "abc123" 100000001
                    demoStore)) = ∅.
Proof. split; reflexivity. Qed.

(** C10, amended. [initiate] does not look at the sign of the amount: for a
    signed-in caller who names a source account of their own and a
    destination, a negative amount that does not exceed the balance (any
    negative amount when the balance is not negative) is accepted and a
    transfer is stored in PENDING_OTP with that amount; the amount zero is
    rejected with VALIDATION, as a missing field, and nothing is stored. *)
Theorem initiate_accepts_negative_amount :
  ∀ (s : MockState) (authToken fromAccountId toAccountId : string) (amount : Z)
    (sfx : string) (now : Z) (user : User.t) (i : nat) (acct : Account.t),
    requireAuth authToken s = (Ok user, s) →
    truthy fromAccountId = true → truthy toAccountId = true →
    find (ownedBy fromAccountId user) (accounts s) = Some (i, acct) →
    amount ≤ 0 → amount ≤ Account.balance acct →
    let out := mockTransfer.initiate authToken fromAccountId toAccountId amount sfx now s in
    (amount < 0 →
       fst out = Ok (makeId "transfer" sfx, PENDING_OTP) ∧
       transfers (snd out) !! makeId "transfer" sfx =
         Some (Transfer.mk (makeId "transfer" sfx) (User.id user) fromAccountId toAccountId
                           amount PENDING_OTP None now)) ∧
    (amount = 0 → out = (Err VALIDATION, s)).
Proof.
  intros s authToken fromAccountId toAccountId amount sfx now user i acct
    Hauth Hfrom Hto Hfind Hsign Hbal out.
  subst out. rewrite (initiate_eq _ _ _ _ _ _ _ _ _ _ Hauth Hfrom Hto Hfind).
  split.
  - intros Hneg.
    assert (HtN : truthyNum amount = true) by (apply bool_decide_eq_true; lia).
    rewrite HtN.
    destruct (Z.gtb_spec amount (Account.balance acct)); [lia|].
    cbn [fst snd transfers setTransfers]. split; [done|]. apply lookup_insert_eq.
  - by intros ->.
Qed.

Lemma initiate_accepts_negative_amount_witness :
  fst (mockTransfer.initiate "token-tok001" "acct-1" "acct-2" (-5000) "neg001" 100000001
         demoStore) = Ok ("transfer-neg001", PENDING_OTP).
Proof.
  pose proof (initiate_accepts_negative_amount demoStore "token-tok001" "acct-1" "acct-2"
    (-5000) "neg001" 100000001 demoUser 0%nat
    (Account.mk "acct-1" "user-1" "Everyday Checking" "1234567890" 428075 "USD")
    eq_refl eq_refl eq_refl eq_refl) as H.
  destruct H as [Hneg _]; [lia | simpl; lia |].
  destruct Hneg as [Hfst _]; [lia|]. exact Hfst.
Defined.

(** ** Transaction listing *)

Lemma insertTx_perm x l : insertTx x l ≡ₚ x :: l.
Proof.
  induction l as [|y l IH]; cbn [insertTx]; [done|].
  destruct (_ <=? _); [done|]. rewrite IH. apply Permutation_swap.
Qed.

Lemma sortNewestFirst_perm l : sortNewestFirst l ≡ₚ l.
Proof.
  induction l as [|x l IH]; [done|].
  cbn [sortNewestFirst foldr]. rewrite insertTx_perm. by f_equiv.
Qed.

Lemma insertTx_newestFirst x l : newestFirst l → newestFirst (insertTx x l).
Proof.
  induction l as [|y l IH]; cbn [insertTx newestFirst]; [done|].
  intros [Hy Hl].
  destruct (Z.leb_spec (Transaction.createdAt y - Transaction.createdAt x) 0) as [Hle|Hgt].
  - cbn [newestFirst]. repeat split; try done.
    apply Forall_cons. split; [lia|].
    eapply Forall_impl; [exact Hy|]. cbn. intros; lia.
  - cbn [newestFirst]. split; [|by apply IH].
    rewrite insertTx_perm. apply Forall_cons. split; [lia | done].
Qed.

(** The list [mockTransactions] returns is sorted newest first. *)
Lemma sortNewestFirst_sorted l : newestFirst (sortNewestFirst l).
Proof.
  induction l as [|x l IH]; [done|].
  cbn [sortNewestFirst foldr]. by apply insertTx_newestFirst.
Qed.

(** Without an [accountId] filter, every transaction returned belongs to an
    account of the caller. *)
Lemma mockTransactions_unfiltered_owned authToken s user txs tx :
  requireAuth authToken s = (Ok user, s) →
  fst (mockTransactions authToken "" s) = Ok txs →
  tx ∈ txs →
  Transaction.accountId tx ∈ ownedAccountIds s (User.id user).
Proof.
  intros Hauth. unfold mockTransactions, bind, getState, ret. rewrite Hauth.
  cbn [fst]. intros [= <-] Hin.
  rewrite sortNewestFirst_perm in Hin.
  apply list_elem_of_In, filter_In in Hin as [_ Hin].
  change (truthy "") with false in Hin. cbv iota in Hin.
  by apply bool_decide_eq_true in Hin.
Qed.

(** C6 fails on the code when the [accountId] filter is supplied.  Eve owns
    only "acct-eva001", yet asking for "acct-1", an account of the demo
    customer, returns the two transactions of that account. *)
Theorem mockTransactions_filter_skips_ownership :
  (∃ eve, requireAuth "token-evt001" eveStore = (Ok eve, eveStore) ∧
          User.id eve = "user-eve001") ∧
  ownedAccountIds eveStore "user-eve001" = ["acct-eva001"] ∧
  ownedAccountIds eveStore "user-1" = ["acct-1"; "acct-2"] ∧
  fst (mockTransactions "token-evt001" "acct-1" eveStore) =
    Ok [ Transaction.mk "tx-1" "acct-1" "Coffee shop" (-875) 85600000;
         Transaction.mk "tx-2" "acct-1" "Direct deposit" 180000 6400000 ].
Proof.
  split; [|split; [|split]]; try (vm_compute; reflexivity).
  eexists. split; vm_compute; reflexivity.
Qed.

(** ** What a request does to the status of a transfer *)

Lemma register_transfers email password name userSfx acctSfx tokenSfx numDraw s :
  transfers (snd (mockAuth.register email password name userSfx acctSfx tokenSfx numDraw s))
    = transfers s.
Proof.
  unfold mockAuth.register. unfold_endpoint.
  destruct (negb (truthy email) || negb (truthy password)); [done|].
  by destruct (bool_decide _).
Qed.

Lemma login_transfers email password tokenSfx s :
  transfers (snd (mockAuth.login email password tokenSfx s)) = transfers s.
Proof.
  unfold mockAuth.login. unfold_endpoint.
  by destruct (find _ (users s)) as [[? ?]|].
Qed.

Lemma me_store authToken s : snd (mockAuth.me authToken s) = s.
Proof. unfold mockAuth.me. unfold_endpoint. by auth_cases authToken s. Qed.

Lemma mockAccounts_store authToken s : snd (mockAccounts authToken s) = s.
Proof. unfold mockAccounts. unfold_endpoint. by auth_cases authToken s. Qed.

Lemma mockTransactions_store authToken accountId s :
  snd (mockTransactions authToken accountId s) = s.
Proof. unfold mockTransactions. unfold_endpoint. by auth_cases authToken s. Qed.

Lemma initiate_status authToken fromAccountId toAccountId amount sfx now s transferId :
  let s' := snd (mockTransfer.initiate authToken fromAccountId toAccountId amount sfx now s) in
  statusOf s' transferId = statusOf s transferId ∨ statusOf s' transferId = Some PENDING_OTP.
Proof.
  cbv zeta. unfold mockTransfer.initiate. unfold_endpoint.
  auth_cases authToken s; [|by left].
  destruct (negb (truthy fromAccountId) || negb (truthy toAccountId) || negb (truthyNum amount));
    [by left|].
  destruct (find _ (accounts s)) as [[i acct]|]; [|by left].
  destruct (amount >? Account.balance acct); [by left|].
  cbn [snd]. unfold statusOf. cbn [transfers setTransfers].
  destruct (decide (makeId "transfer" sfx = transferId)) as [<-|Hne].
  - right. by rewrite lookup_insert_eq.
  - left. by rewrite lookup_insert_ne.
Qed.

Lemma sendOtp_status authToken transferId draw now s tid :
  statusOf (snd (mockTransfer.sendOtp authToken transferId draw now s)) tid = statusOf s tid.
Proof.
  unfold mockTransfer.sendOtp. unfold_endpoint.
  auth_cases authToken s; [|done].
  destruct (transfers s !! transferId) as [t|] eqn:Ht; [|done].
  cbn [snd]. unfold statusOf. cbn [transfers setTransfers].
  destruct (decide (transferId = tid)) as [<-|Hne].
  - by rewrite lookup_insert_eq, Ht.
  - by rewrite lookup_insert_ne.
Qed.

Lemma verifyOtp_status authToken transferId code now s tid :
  let s' := snd (mockTransfer.verifyOtp authToken transferId code now s) in
  statusOf s' tid = statusOf s tid ∨
  (tid = transferId ∧ is_Some (statusOf s tid) ∧ statusOf s' tid = Some VERIFIED).
Proof.
  cbv zeta. unfold mockTransfer.verifyOtp. unfold_endpoint.
  auth_cases authToken s; [|by left].
  destruct (transfers s !! transferId) as [t|] eqn:Ht; [|by left].
  destruct (Transfer.otp t) as [o|]; [|by left].
  destruct (Otp.expiresAt o <? now); [by left|].
  destruct (Otp.attempts o >=? 5); [by left|].
  unfold statusOf.
  destruct (bool_decide (Otp.code o ≠ code)); cbn [snd transfers setTransfers];
    (destruct (decide (transferId = tid)) as [<-|Hne];
     [rewrite lookup_insert_eq, Ht | left; by rewrite lookup_insert_ne]).
  - by left.
  - right. cbn. eauto.
Qed.

Lemma confirm_status authToken transferId note sfx txNow receiptNow reference s tid :
  let s' := snd (mockTransfer.confirm authToken transferId note sfx txNow receiptNow reference s) in
  statusOf s' tid = statusOf s tid ∨
  (tid = transferId ∧ statusOf s tid = Some VERIFIED ∧ statusOf s' tid = Some COMPLETED).
Proof.
  cbv zeta. unfold mockTransfer.confirm. unfold_endpoint.
  auth_cases authToken s; [|by left].
  destruct (transfers s !! transferId) as [t|] eqn:Ht; [|by left].
  destruct (decide (Transfer.status t = VERIFIED)) as [Hst|Hst].
  2:{ rewrite bool_decide_eq_true_2 by done. by left. }
  rewrite bool_decide_eq_false_2 by (intros ?; done).
  destruct (find _ (accounts s)) as [[i fromAccount]|]; [|by left].
  destruct (Transfer.amount t >? Account.balance fromAccount); [by left|].
  cbn [accounts setAccounts].
  destruct (find (hasId _) _) as [[j toAcct]|]; cbn [snd]; unfold statusOf;
    cbn [transfers setTransfers setTransactions setAccounts];
    (destruct (decide (transferId = tid)) as [<-|Hne];
     [right; rewrite lookup_insert_eq, Ht; cbn; by rewrite Hst
     |left; by rewrite lookup_insert_ne]).
Qed.

(** Every request leaves the status of a transfer alone, or stores a new
    transfer in PENDING_OTP, or is a [verifyOtp] for that transfer and sets
    VERIFIED, or is a [confirm] for that transfer, found VERIFIED, and sets
    COMPLETED. *)
Lemma route_status call s tid :
  let s' := snd (routeMockRequest call s) in
  statusOf s' tid = statusOf s tid
  ∨ statusOf s' tid = Some PENDING_OTP
  ∨ (is_Some (statusOf s tid) ∧ statusOf s' tid = Some VERIFIED ∧
     ∃ authToken code now, call = VerifyOtp authToken tid code now)
  ∨ (statusOf s tid = Some VERIFIED ∧ statusOf s' tid = Some COMPLETED ∧
     ∃ authToken note sfx txNow receiptNow reference,
       call = Confirm authToken tid note sfx txNow receiptNow reference).
Proof.
  cbv zeta. destruct call; cbn [routeMockRequest]; rewrite ?snd_mapResult.
  - left. unfold statusOf. by rewrite register_transfers.
  - left. unfold statusOf. by rewrite login_transfers.
  - left. by rewrite me_store.
  - left. by rewrite mockAccounts_store.
  - left. by rewrite mockTransactions_store.
  - destruct (initiate_status authToken fromAccountId toAccountId amount transferSfx now s tid);
      auto.
  - left. apply sendOtp_status.
  - destruct (verifyOtp_status authToken transferId code now s tid) as [?|(-> & ? & ?)];
      [by left|]. right; right; left. eauto 10.
  - destruct (confirm_status authToken transferId note receiptSfx txNow receiptNow reference
                s tid) as [?|(-> & ? & ?)]; [by left|]. right; right; right. eauto 10.
  - by left.
Qed.

(** C1. For a stored transfer: [confirm] succeeds only if its status is
    VERIFIED when it is called; in any other status [confirm] throws, the
    store stays as it was, and the error is OTP_REQUIRED for a signed-in
    caller; a request that brings the transfer to COMPLETED found it
    VERIFIED and is a [confirm] for it; and a request that brings it to
    VERIFIED is a [verifyOtp] for it. *)
Theorem confirm_requires_verified :
  ∀ (s : MockState) (transferId : string) (t : Transfer.t),
    transfers s !! transferId = Some t →
    (∀ authToken note sfx txNow receiptNow reference,
       let out := mockTransfer.confirm authToken transferId note sfx txNow receiptNow
                    reference s in
       (isOk (fst out) → Transfer.status t = VERIFIED) ∧
       (Transfer.status t ≠ VERIFIED →
          snd out = s ∧ ¬ isOk (fst out) ∧
          ∀ user, requireAuth authToken s = (Ok user, s) → fst out = Err OTP_REQUIRED)) ∧
    (∀ call,
       let s' := snd (routeMockRequest call s) in
       (statusOf s' transferId = Some COMPLETED → Transfer.status t ≠ COMPLETED →
          Transfer.status t = VERIFIED ∧
          ∃ authToken note sfx txNow receiptNow reference,
            call = Confirm authToken transferId note sfx txNow receiptNow reference) ∧
       (statusOf s' transferId = Some VERIFIED → Transfer.status t ≠ VERIFIED →
          ∃ authToken code now, call = VerifyOtp authToken transferId code now)).
Proof.
  intros s transferId t Ht.
  assert (Hstatus : statusOf s transferId = Some (Transfer.status t))
    by (unfold statusOf; by rewrite Ht).
  split.
  - intros authToken note sfx txNow receiptNow reference out. subst out. split.
    + intros Hok. apply confirm_ok_inv in Hok as (? & t' & ? & ? & _ & Ht' & Hst & _).
      congruence.
    + intros Hne. unfold mockTransfer.confirm. unfold_endpoint.
      rewrite Ht. rewrite (bool_decide_eq_true_2 _ Hne).
      auth_cases authToken s; repeat split; try done; auto.
  - intros call s'. subst s'.
    destruct (route_status call s transferId)
      as [Hsame|[Hpending|[(_ & Hv & Hcall)|(Hbefore & Hc & Hcall)]]];
      rewrite ?Hstatus in *; split; intros Hafter Hne; try congruence.
    split; [congruence | exact Hcall].
Qed.

Lemma confirm_requires_verified_witness :
  let out := mockTransfer.confirm "token-tok001" "transfer-abc123" "" "rcp001"
               100000004 100000005 "REF-AAAA-BBBB" otpStore in
  snd out = otpStore ∧ fst out = Err OTP_REQUIRED.
Proof.
  intros out.
  pose proof (confirm_requires_verified otpStore "transfer-abc123"
    (Transfer.mk "transfer-abc123" "user-1" "acct-1" "acct-2" 5000 PENDING_OTP
       (Some (Otp.mk "123456" 0 100300002)) 100000001) eq_refl) as [Hconfirm _].
  destruct (Hconfirm "token-tok001" "" "rcp001" 100000004 100000005 "REF-AAAA-BBBB")
    as [_ Hother].
  destruct Hother as (Hstore & _ & Herr); [discriminate|].
  split; [exact Hstore | exact (Herr demoUser eq_refl)].
Defined.

(** A transfer that is not stored before a request is, after it, still not
    stored or stored in PENDING_OTP. *)
Lemma route_new_transfer_pending call s transferId :
  statusOf s transferId = None →
  let s' := snd (routeMockRequest call s) in
  statusOf s' transferId = None ∨ statusOf s' transferId = Some PENDING_OTP.
Proof.
  intros Hnone. cbv zeta.
  destruct (route_status call s transferId)
    as [Hsame|[Hpending|[(Hsome & _)|(Hbefore & _)]]].
  - left. congruence.
  - by right.
  - rewrite Hnone in Hsome. by destruct Hsome.
  - congruence.
Qed.

(** * Further properties of the mock API *)

(** ** The effect of a request *)

Lemma mapResult_eq {A B} (f : A → B) (c : M A) s :
  mapResult f c s =
    (match fst (c s) with Ok a => Ok (f a) | Err e => Err e end, snd (c s)).
Proof. unfold mapResult, bind, ret. by destruct (c s) as [[?|?] ?]. Qed.

Lemma effect_error s call e : e ≠ OTP_INVALID → Effect s call (Err e) s.
Proof. intros He. apply EffNone. right. eauto. Qed.

Lemma requireAuth_cases authToken s :
  (∃ user, requireAuth authToken s = (Ok user, s)) ∨
  requireAuth authToken s = (Err UNAUTHORIZED, s).
Proof.
  rewrite (requireAuth_pure authToken s).
  destruct (fst (requireAuth authToken s)) as [user|e] eqn:Hr; [left; eauto|].
  right. by rewrite (requireAuth_err _ _ _ Hr).
Qed.

(** Every outcome of the router is one of the effects. *)
Lemma route_effect call s :
  Effect s call (fst (routeMockRequest call s)) (snd (routeMockRequest call s)).
Proof.
  destruct call; cbn [routeMockRequest]; rewrite ?mapResult_eq; cbn [fst snd].
  - (* register *)
    unfold mockAuth.register. unfold_endpoint.
    destruct (truthy email) eqn:He; cbn [negb orb]; [|by apply effect_error].
    destruct (truthy password) eqn:Hp; cbn [negb]; [|by apply effect_error].
    destruct (find _ (users s)) as [[i u]|] eqn:Hfind.
    + rewrite bool_decide_eq_true_2 by eauto. by apply effect_error.
    + rewrite bool_decide_eq_false_2 by (intros [? ?]; done). cbn [fst snd].
      by apply EffRegister.
  - (* login *)
    unfold mockAuth.login. unfold_endpoint.
    destruct (find _ (users s)) as [[i u]|] eqn:Hfind; cbn [fst snd].
    + by eapply EffLogin.
    + by apply effect_error.
  - rewrite me_store. apply EffNone. by left.
  - rewrite mockAccounts_store. apply EffNone. by left.
  - rewrite mockTransactions_store. apply EffNone. by left.
  - (* initiate *)
    destruct (requireAuth_cases authToken s) as [[user Hauth]|Hauth].
    2:{ unfold mockTransfer.initiate, bind. rewrite Hauth. by apply effect_error. }
    destruct (truthy fromAccountId) eqn:Hfrom.
    2:{ unfold mockTransfer.initiate. unfold_endpoint. rewrite Hauth, Hfrom.
        by apply effect_error. }
    destruct (truthy toAccountId) eqn:Hto.
    2:{ unfold mockTransfer.initiate. unfold_endpoint. rewrite Hauth, Hfrom, Hto.
        by apply effect_error. }
    destruct (find (ownedBy fromAccountId user) (accounts s)) as [[i acct]|] eqn:Hfind.
    2:{ unfold mockTransfer.initiate. unfold_endpoint. rewrite Hauth, Hfrom, Hto.
        cbn [negb orb]. destruct (truthyNum amount); cbn [negb]; [|by apply effect_error].
        rewrite Hfind. by apply effect_error. }
    rewrite (initiate_eq _ _ _ _ _ _ _ _ _ _ Hauth Hfrom Hto Hfind).
    destruct (truthyNum amount) eqn:Hnum; [|by apply effect_error].
    apply bool_decide_eq_true in Hnum.
    destruct (Z.gtb_spec amount (Account.balance acct)); cbn [fst snd].
    + by apply effect_error.
    + by eapply EffInitiate.
  - (* sendOtp *)
    destruct (requireAuth_cases authToken s) as [[user Hauth]|Hauth].
    2:{ unfold mockTransfer.sendOtp. unfold_endpoint. rewrite Hauth. by apply effect_error. }
    destruct (transfers s !! transferId) as [t|] eqn:Ht.
    2:{ unfold mockTransfer.sendOtp. unfold_endpoint. rewrite Hauth, Ht.
        by apply effect_error. }
    rewrite (sendOtp_eq _ _ _ _ _ _ _ Hauth Ht). cbn [fst snd]. by eapply EffSendOtp.
  - (* verifyOtp *)
    destruct (requireAuth_cases authToken s) as [[user Hauth]|Hauth].
    2:{ unfold mockTransfer.verifyOtp. unfold_endpoint. rewrite Hauth. by apply effect_error. }
    destruct (transfers s !! transferId) as [t|] eqn:Ht.
    2:{ unfold mockTransfer.verifyOtp. unfold_endpoint. rewrite Hauth, Ht.
        by apply effect_error. }
    destruct (Transfer.otp t) as [o|] eqn:Ho.
    2:{ unfold mockTransfer.verifyOtp. unfold_endpoint. rewrite Hauth, Ht, Ho.
        by apply effect_error. }
    rewrite (verifyOtp_eq _ _ _ _ _ _ _ _ Hauth Ht Ho).
    destruct (Z.ltb_spec (Otp.expiresAt o) now); [by apply effect_error|].
    destruct (Z.geb_spec (Otp.attempts o) 5); [by apply effect_error|].
    destruct (decide (Otp.code o = code)) as [Hc|Hc].
    + rewrite bool_decide_eq_false_2 by (intros ?; done). by eapply EffVerifyOk.
    + rewrite bool_decide_eq_true_2 by done. by eapply EffVerifyWrong.
  - (* confirm *)
    destruct (requireAuth_cases authToken s) as [[user Hauth]|Hauth].
    2:{ unfold mockTransfer.confirm. unfold_endpoint. rewrite Hauth. by apply effect_error. }
    destruct (transfers s !! transferId) as [t|] eqn:Ht.
    2:{ unfold mockTransfer.confirm. unfold_endpoint. rewrite Hauth, Ht.
        by apply effect_error. }
    destruct (decide (Transfer.status t = VERIFIED)) as [Hst|Hst].
    2:{ unfold mockTransfer.confirm. unfold_endpoint. rewrite Hauth, Ht.
        rewrite bool_decide_eq_true_2 by done. by apply effect_error. }
    destruct (find (ownedBy (Transfer.fromAccountId t) user) (accounts s))
      as [[i fromAccount]|] eqn:Hfind.
    2:{ unfold mockTransfer.confirm. unfold_endpoint. rewrite Hauth, Ht, Hfind.
        rewrite bool_decide_eq_false_2 by (intros ?; done). by apply effect_error. }
    destruct (Z.gtb_spec (Transfer.amount t) (Account.balance fromAccount)) as [Hgt|Hle].
    { unfold mockTransfer.confirm. unfold_endpoint. rewrite Hauth, Ht, Hfind.
      rewrite bool_decide_eq_false_2 by (intros ?; done).
      destruct (Z.gtb_spec (Transfer.amount t) (Account.balance fromAccount)); [|lia].
      by apply effect_error. }
    destruct (confirm_eq authToken transferId note receiptSfx txNow receiptNow reference
                s user t i fromAccount Hauth Ht Hst Hfind Hle) as [receipt ->].
    cbn [fst snd]. by eapply EffConfirm.
  - cbn [handleFailure default fst snd]. by apply effect_error.
Qed.

(** Case analysis on the effect of serving [call] on [s]: the answer is [r]
    and the store left behind is [s']. *)
Ltac route_cases call s :=
  let Heff := fresh "Heff" in
  pose proof (route_effect call s) as Heff;
  destruct (routeMockRequest call s) as [r s'] eqn:Hroute;
  cbn [fst snd] in *.

(** ** What a request never does *)

(** X1. A request that throws anything but OTP_INVALID leaves the whole store
    as it was, so no failed step of the workflow is half applied; a request
    that throws OTP_INVALID leaves users, tokens, accounts and transactions
    as they were. *)
Theorem failed_request_leaves_store :
  ∀ (call : Call) (s : MockState) (e : ErrorCode),
    fst (routeMockRequest call s) = Err e →
    let s' := snd (routeMockRequest call s) in
    (e ≠ OTP_INVALID → s' = s) ∧
    users s' = users s ∧ tokens s' = tokens s ∧
    accounts s' = accounts s ∧ transactions s' = transactions s.
Proof.
  intros call s e Hfst s'. subst s'. route_cases call s. subst r.
  inversion Heff; subst; done.
Qed.

Lemma failed_request_leaves_store_witness :
  snd (routeMockRequest
         (Confirm "token-tok001" "transfer-abc123" "" "rcp001" 100000004 100000005
                  "REF-AAAA-BBBB") otpStore) = otpStore.
Proof.
  refine (proj1 (failed_request_leaves_store
    (Confirm "token-tok001" "transfer-abc123" "" "rcp001" 100000004 100000005 "REF-AAAA-BBBB")
    otpStore OTP_REQUIRED eq_refl) _).
  discriminate.
Defined.

(** ** The ledger as a whole *)

Lemma find_debit_hasId accountId i fromAccount amount accts :
  accts !! i = Some fromAccount →
  find (hasId accountId) (debit i fromAccount amount accts) =
    match find (hasId accountId) accts with
    | Some (j, z) =>
        Some (j, if decide (j = i)
                 then Account.setBalance fromAccount (Account.balance fromAccount - amount)
                 else z)
    | None => None
    end.
Proof. intros Hi. unfold debit. by apply (find_insert_same_key _ _ _ fromAccount). Qed.

(** X2. Balances move only through [confirm].  A [register] that succeeds
    leaves the [accounts] array as it was, followed by one new account; a
    [confirm] that succeeds keeps the length of the array and leaves every
    account as it was whose id is neither the source nor the destination id
    of the transfer; every other request, and every request that fails,
    leaves the array as it was. *)
Theorem balances_move_only_on_confirm :
  ∀ (call : Call) (s : MockState),
    let out := routeMockRequest call s in
    match call, fst out with
    | Register _ _ _ _ _ _ _, Ok _ =>
        ∃ a, Account.balance a = 0 ∧ accounts (snd out) = (accounts s ++ [a])%list
    | Confirm _ transferId _ _ _ _ _, Ok _ =>
        ∃ t, transfers s !! transferId = Some t ∧
             length (accounts (snd out)) = length (accounts s) ∧
             ∀ k a, accounts s !! k = Some a →
                    Account.id a ≠ Transfer.fromAccountId t →
                    Account.id a ≠ Transfer.toAccountId t →
                    accounts (snd out) !! k = Some a
    | _, _ => accounts (snd out) = accounts s
    end.
Proof.
  intros call s out. subst out. route_cases call s.
  inversion Heff as [ ? ? Hnone | | | | | | | ? ? ? ? ? ? ? ? t i fromAccount ? ? Ht ? Hfrom];
    subst; try done.
  - destruct Hnone as [Hq | (e & -> & _)]; [|by destruct call].
    by destruct call.
  - eexists. split; [|reflexivity]. done.
  - exists t. split; [done|].
    apply find_Some in Hfrom as [Hi Hown].
    unfold confirmed, credit. cbn [accounts].
    assert (Hlen : length (debit i fromAccount (Transfer.amount t) (accounts s))
                   = length (accounts s)) by (unfold debit; by rewrite length_insert).
    assert (Hframe : ∀ k a, accounts s !! k = Some a →
              Account.id a ≠ Transfer.fromAccountId t →
              debit i fromAccount (Transfer.amount t) (accounts s) !! k = Some a).
    { intros k a Hk Hid. unfold debit. rewrite list_lookup_insert_ne; [done|].
      intros ->. rewrite Hi in Hk. injection Hk as <-.
      unfold ownedBy in Hown. apply andb_true_iff in Hown as [Hown _].
      by apply bool_decide_eq_true in Hown. }
    destruct (find (hasId (Transfer.toAccountId t)) _) as [[j toAcct]|] eqn:Hto.
    + split; [by rewrite length_insert|].
      intros k a Hk Hfromid Htoid.
      apply find_Some in Hto as [Hj Hjid].
      rewrite list_lookup_insert_ne; [by apply Hframe|].
      intros ->. rewrite (Hframe _ _ Hk Hfromid) in Hj. injection Hj as <-.
      by apply bool_decide_eq_true in Hjid.
    + split; [done|]. intros k a Hk Hfromid _. by apply Hframe.
Qed.


Lemma setBalance_same a : Account.setBalance a (Account.balance a) = a.
Proof. by destruct a. Qed.

Lemma setBalance_twice a b b' :
  Account.setBalance (Account.setBalance a b) b' = Account.setBalance a b'.
Proof. done. Qed.

(** X4. No request removes, moves or re-labels an account: the account stored
    at an index is, after any request, still stored at that index with the
    same id, owner, name, number and currency; only its balance may differ. *)
Theorem accounts_keep_identity :
  ∀ (call : Call) (s : MockState) (i : nat) (a : Account.t),
    accounts s !! i = Some a →
    ∃ b, accounts (snd (routeMockRequest call s)) !! i = Some (Account.setBalance a b).
Proof.
  intros call s i a Ha. route_cases call s.
  assert (Hsame : ∃ b, accounts s !! i = Some (Account.setBalance a b)).
  { exists (Account.balance a). by rewrite setBalance_same. }
  inversion Heff as [ | | | | | | | ? ? ? ? ? ? ? ? t i0 fromAccount ? ? Ht ? Hfrom];
    subst; try done.
  - cbn [accounts]. exists (Account.balance a).
    rewrite setBalance_same. by apply lookup_app_l_Some.
  - apply find_Some in Hfrom as [Hi0 _].
    unfold confirmed, credit. cbn [accounts].
    assert (Hdebit : ∃ b, debit i0 fromAccount (Transfer.amount t) (accounts s) !! i
                          = Some (Account.setBalance a b)).
    { unfold debit. destruct (decide (i0 = i)) as [->|Hne].
      - rewrite list_lookup_insert_eq by (by eapply lookup_lt_Some).
        rewrite Ha in Hi0. injection Hi0 as <-. eauto.
      - rewrite list_lookup_insert_ne by done. done. }
    destruct (find _ (debit _ _ _ _)) as [[j toAcct]|] eqn:Hto; [|done].
    apply find_Some in Hto as [Hj _]. destruct Hdebit as [b Hb].
    destruct (decide (j = i)) as [->|Hne].
    + rewrite list_lookup_insert_eq by (by eapply lookup_lt_Some).
      rewrite Hb in Hj. injection Hj as <-. rewrite setBalance_twice. eauto.
    + rewrite list_lookup_insert_ne by done. eauto.
Qed.

Lemma accounts_keep_identity_witness :
  ∃ b, accounts completedStore !! 1%nat =
         Some (Account.setBalance
                 (Account.mk "acct-2" "user-1" "Savings Vault" "9876543210" 1325035 "USD") b).
Proof.
  exact (accounts_keep_identity
    (Confirm "token-tok001" "transfer-abc123" "" "rcp001" 100000004 100000005 "REF-AAAA-BBBB")
    (snd (routeMockRequest (VerifyOtp "token-tok001" "transfer-abc123" "123456" 100000003)
            otpStore))
    1%nat (Account.mk "acct-2" "user-1" "Savings Vault" "9876543210" 1325035 "USD") eq_refl).
Defined.

(** ** Invariants of every reachable store *)

Lemma reachable_ind (P : MockState → Prop) :
  (∀ loadTime, P (mockState loadTime)) →
  (∀ call s, P s → P (snd (routeMockRequest call s))) →
  ∀ s, reachable s → P s.
Proof.
  intros Hinit Hstep s (loadTime & cs & ->). unfold serve.
  generalize (Hinit loadTime). generalize (mockState loadTime).
  induction cs as [|c cs IH]; intros s0 Hs0; cbn [foldl]; [done|].
  apply IH. by apply Hstep.
Qed.

Lemma challengesBounded_step call s :
  challengesBounded s → challengesBounded (snd (routeMockRequest call s)).
Proof.
  intros Hinv. route_cases call s.
  inversion Heff; subst; try done; intros tid' t' o'; cbn [transfers setTransfers confirmed];
    (destruct (decide (tid' = transferId)) as [->|Hne] ||
     destruct (decide (tid' = makeId "transfer" sfx)) as [->|Hne]);
    rewrite ?lookup_insert_eq, ?lookup_insert_ne by done;
    try (by apply Hinv).
  - by intros [= <-].
  - intros [= <-] [= <-]. cbn. lia.
  - intros [= <-] [= <-]. cbn.
    match goal with Ht : transfers s !! _ = Some ?t, Ho : Transfer.otp ?t = Some ?o |- _ =>
      pose proof (Hinv _ _ _ Ht Ho) end. lia.
  - intros [= <-] Ho'. cbn in Ho'. by eapply Hinv.
  - intros [= <-] Ho'. cbn in Ho'. by eapply Hinv.
Qed.

(** X5. However the requests follow one another, the attempt counter of a
    stored challenge never leaves the range from zero to five. *)
Theorem attempts_never_exceed_five :
  ∀ (s : MockState) (transferId : string) (t : Transfer.t) (o : Otp.t),
    reachable s →
    transfers s !! transferId = Some t → Transfer.otp t = Some o →
    0 ≤ Otp.attempts o ≤ 5.
Proof.
  intros s transferId t o Hreach. revert transferId t o.
  change (challengesBounded s). revert s Hreach. apply reachable_ind.
  - intros loadTime tid t o Ht. unfold mockState in Ht. cbn [transfers] in Ht.
    by rewrite lookup_empty in Ht.
  - intros call s. apply challengesBounded_step.
Qed.

Lemma attempts_never_exceed_five_witness :
  reachable lockedStore ∧
  (Transfer.otp <$> transfers lockedStore !! "transfer-abc123")
    = Some (Some (Otp.mk "123456" 5 100300002)) ∧
  0 ≤ Otp.attempts (Otp.mk "123456" 5 100300002) ≤ 5.
Proof.
  assert (Hreach : reachable lockedStore).
  { exists 100000000,
      ([ Login "demo@bank.test" "password123" "tok001";
         Initiate "token-tok001" "acct-1" "acct-2" 5000 "abc123" 100000001;
         SendOtp "token-tok001" "transfer-abc123" 23456 100000002 ]
       ++ replicate 5 (VerifyOtp "token-tok001" "transfer-abc123" "000000" 100000003))%list.
    vm_compute. reflexivity. }
  split; [exact Hreach|]. split; [reflexivity|].
  exact (attempts_never_exceed_five lockedStore "transfer-abc123"
    (Transfer.mk "transfer-abc123" "user-1" "acct-1" "acct-2" 5000 PENDING_OTP
       (Some (Otp.mk "123456" 5 100300002)) 100000001)
    (Otp.mk "123456" 5 100300002) Hreach eq_refl eq_refl).
Defined.

(** ** Sessions *)

Lemma makeId_nonempty prefix suffix : prefix ≠ "" → makeId prefix suffix ≠ "".
Proof. unfold makeId. by destruct prefix. Qed.

Lemma requireAuth_of_token token s userId i u :
  tokens s !! token = Some userId → userId ≠ "" →
  find (λ u, bool_decide (User.id u = userId)) (users s) = Some (i, u) →
  requireAuth token s = (Ok u, s).
Proof.
  intros Htok Hne Hfind. unfold requireAuth. unfold_endpoint.
  rewrite Htok. unfold truthy. rewrite bool_decide_eq_true_2 by done.
  by rewrite Hfind.
Qed.

Lemma requireAuth_Ok_inv token s u :
  requireAuth token s = (Ok u, s) →
  ∃ userId i,
    tokens s !! token = Some userId ∧ userId ≠ "" ∧
    find (λ u, bool_decide (User.id u = userId)) (users s) = Some (i, u).
Proof.
  unfold requireAuth. unfold_endpoint.
  destruct (tokens s !! token) as [userId|]; [|done].
  unfold truthy. destruct (decide (userId ≠ "")) as [Hne|Hne].
  2:{ by rewrite bool_decide_eq_false_2. }
  rewrite bool_decide_eq_true_2 by done.
  destruct (find _ (users s)) as [[i u']|] eqn:Hfind; [|done].
  intros [= ->]. eauto.
Qed.

Lemma sessionsValid_step call s :
  usersNamed s ∧ tokensValid s →
  usersNamed (snd (routeMockRequest call s)) ∧ tokensValid (snd (routeMockRequest call s)).
Proof.
  intros [Hnamed Hvalid]. route_cases call s.
  inversion Heff; subst; try done.
  - (* register *) split.
    + intros u. cbn [users]. rewrite elem_of_app, list_elem_of_singleton.
      intros [Hu| ->]; [by apply Hnamed | by apply makeId_nonempty].
    + intros token userId. cbn [tokens users].
      destruct (decide (token = makeId "token" tokenSfx)) as [->|Hne].
      * rewrite lookup_insert_eq. intros [= <-]. split; [by apply makeId_nonempty|].
        eexists. split; [apply elem_of_app; right; by apply list_elem_of_singleton | done].
      * rewrite lookup_insert_ne by done. intros Htok.
        destruct (Hvalid _ _ Htok) as (Hne' & u & Hu & Hid).
        split; [done|]. exists u. split; [|done]. apply elem_of_app. by left.
  - (* login *) split; [done|].
    intros token userId. cbn [tokens users setTokens].
    match goal with H : find _ (users s) = Some _ |- _ => apply find_Some in H as [Hi _] end.
    apply list_elem_of_lookup_2 in Hi.
    destruct (decide (token = makeId "token" tokenSfx)) as [->|Hne].
    + rewrite lookup_insert_eq. intros [= <-]. split; [by apply Hnamed | eauto].
    + rewrite lookup_insert_ne by done. apply Hvalid.
Qed.

(** X6. In every reachable store, every token that is stored authenticates:
    it maps to the non-empty id of a stored user, so [requireAuth] never
    meets a token whose user is gone. *)
Theorem stored_tokens_authenticate :
  ∀ (s : MockState) (token userId : string),
    reachable s →
    tokens s !! token = Some userId →
    ∃ u, requireAuth token s = (Ok u, s) ∧ User.id u = userId.
Proof.
  intros s token userId Hreach Htok.
  assert (Hinv : usersNamed s ∧ tokensValid s).
  { clear Htok. revert s Hreach. apply reachable_ind.
    - intros loadTime. split.
      + intros u. unfold mockState. cbn [users]. rewrite list_elem_of_singleton. by intros ->.
      + intros tok uid. unfold mockState. cbn [tokens]. by rewrite lookup_empty.
    - intros call s. apply sessionsValid_step. }
  destruct Hinv as [_ Hvalid]. destruct (Hvalid _ _ Htok) as (Hne & u & Hu & Hid).
  destruct (find_elem (λ u, bool_decide (User.id u = userId)) (users s) u Hu)
    as [[i u'] Hfind]; [by apply bool_decide_eq_true|].
  exists u'. split; [by eapply requireAuth_of_token|].
  apply find_Some in Hfind as [_ Hp]. by apply bool_decide_eq_true in Hp.
Qed.

Lemma stored_tokens_authenticate_witness :
  ∃ u, requireAuth "token-tok001" demoStore = (Ok u, demoStore) ∧ User.id u = "user-1".
Proof.
  refine (stored_tokens_authenticate demoStore "token-tok001" "user-1" _ eq_refl).
  exists 100000000, [ Login "demo@bank.test" "password123" "tok001" ]. reflexivity.
Defined.

(** X7. A session is never revoked: whoever a token authenticates as before a
    request, it authenticates as the same user after it, unless the request
    is a [register] or [login] that happens to draw that very token. *)
Theorem session_never_revoked :
  ∀ (call : Call) (s : MockState) (token : string) (u : User.t),
    requireAuth token s = (Ok u, s) →
    issuedToken call ≠ Some token →
    let s' := snd (routeMockRequest call s) in
    requireAuth token s' = (Ok u, s').
Proof.
  intros call s token u Hauth Hissued s0. subst s0. route_cases call s.
  inversion Heff; subst; try done;
    try (by apply (requireAuth_frame _ s)).
  - (* register *)
    apply requireAuth_Ok_inv in Hauth as (userId & i & Htok & Hne & Hfind).
    eapply requireAuth_of_token; [|exact Hne|].
    + cbn [tokens]. rewrite lookup_insert_ne; [done|]. cbn in Hissued. congruence.
    + cbn [users]. unfold find in *. by apply list_find_app_l.
  - (* login *)
    apply requireAuth_Ok_inv in Hauth as (userId & i' & Htok & Hne & Hfind).
    eapply requireAuth_of_token; [|exact Hne|exact Hfind].
    cbn [tokens setTokens]. rewrite lookup_insert_ne; [done|]. cbn in Hissued. congruence.
Qed.

Lemma session_never_revoked_witness :
  requireAuth "token-tok001" eveStoreAfterLogin
    = (Ok demoUser, eveStoreAfterLogin).
Proof.
  exact (session_never_revoked
    (Register "eve@bank.test" "hunter2" "Eve" "eve001" "eva001" "evt001" 5)
    demoStore "token-tok001" demoUser eq_refl ltac:(discriminate)).
Defined.

Lemma emailsUnique_step call s :
  emailsUnique s → emailsUnique (snd (routeMockRequest call s)).
Proof.
  intros Hinv. route_cases call s.
  inversion Heff; subst; try done.
  unfold emailsUnique. cbn [users]. rewrite fmap_app. apply NoDup_app.
  split; [done|]. split; [|apply NoDup_singleton].
  intros e He. cbn. rewrite list_elem_of_singleton. intros ->.
  apply list_elem_of_fmap in He as (u & Hemail & Hu).
  match goal with H : find _ (users s) = None |- _ =>
    unfold find in H; apply list_find_None in H;
    rewrite Forall_forall in H; apply (H u Hu) end.
  by apply bool_decide_eq_true.
Qed.

(** X8. In every reachable store no two users have the same e-mail address:
    the EMAIL_IN_USE guard of [register] keeps addresses unique, whatever
    the requests and whatever values are drawn. *)
Theorem emails_stay_unique :
  ∀ (s : MockState), reachable s → NoDup (User.email <$> users s).
Proof.
  apply reachable_ind.
  - intros loadTime. unfold mockState. cbn [users fmap list_fmap]. apply NoDup_singleton.
  - apply emailsUnique_step.
Qed.

Lemma emails_stay_unique_witness :
  NoDup (User.email <$> users eveStoreAfterLogin).
Proof.
  apply emails_stay_unique.
  exists 100000000,
    [ Login "demo@bank.test" "password123" "tok001";
      Register "eve@bank.test" "hunter2" "Eve" "eve001" "eva001" "evt001" 5 ].
  reflexivity.
Defined.

Lemma reachable_sessionsValid s : reachable s → usersNamed s ∧ tokensValid s.
Proof.
  revert s. apply reachable_ind.
  - intros loadTime. split.
    + intros u. unfold mockState. cbn [users]. rewrite list_elem_of_singleton. by intros ->.
    + intros tok uid. unfold mockState. cbn [tokens]. by rewrite lookup_empty.
  - intros call s. apply sessionsValid_step.
Qed.

(** X9. Logging in and asking who one is: in a reachable store, the token
    returned by a successful [login] is accepted by [me], which answers with
    a user of the same id; when user ids are pairwise different it answers
    with exactly the summary [login] returned. *)
Theorem login_then_me :
  ∀ (s : MockState) (email password tokenSfx : string) (user : UserSummary) (token : string),
    reachable s →
    fst (mockAuth.login email password tokenSfx s) = Ok (user, token) →
    let s' := snd (mockAuth.login email password tokenSfx s) in
    ∃ user', mockAuth.me token s' = (Ok user', s') ∧
             sum_id user' = sum_id user ∧
             (NoDup (User.id <$> users s) → user' = user).
Proof.
  intros s email password tokenSfx user token Hreach Hlogin s0. subst s0.
  destruct (reachable_sessionsValid s Hreach) as [Hnamed _].
  revert Hlogin. unfold mockAuth.login. unfold_endpoint.
  destruct (find _ (users s)) as [[i u]|] eqn:Hfind; [|done].
  cbn [fst snd]. intros [= <- <-].
  apply find_Some in Hfind as [Hi _].
  assert (Hu : u ∈ users s) by (by eapply list_elem_of_lookup_2).
  destruct (find_elem (λ u0, bool_decide (User.id u0 = User.id u)) (users s) u Hu)
    as [[j u'] Hfind']; [by apply bool_decide_eq_true|].
  set (s' := setTokens s _).
  assert (Hauth : requireAuth (makeId "token" tokenSfx) s' = (Ok u', s')).
  { eapply requireAuth_of_token; [apply lookup_insert_eq | by apply Hnamed | exact Hfind']. }
  exists (summary u'). unfold mockAuth.me, bind, ret. rewrite Hauth.
  apply find_Some in Hfind' as [Hj Hid]. apply bool_decide_eq_true in Hid.
  repeat split; [done|].
  intros Hnodup. f_equal.
  assert (i = j); [|congruence].
  eapply (NoDup_lookup _ _ _ (User.id u) Hnodup); rewrite list_lookup_fmap.
  - by rewrite Hi.
  - rewrite Hj. cbn. by rewrite Hid.
Qed.

Lemma login_then_me_witness :
  ∃ user', mockAuth.me "token-tok001" demoStore = (Ok user', demoStore) ∧
           sum_id user' = "user-1".
Proof.
  destruct (login_then_me (mockState 100000000) "demo@bank.test" "password123" "tok001"
              (summary demoUser) "token-tok001") as (user' & Hme & Hid & _).
  - by exists 100000000, [].
  - reflexivity.
  - exists user'. split; [exact Hme | exact Hid].
Defined.

(** X10. Registering and signing in: after a successful [register], a [login]
    with the same e-mail address and password succeeds and returns the
    summary of the user just created. *)
Theorem register_then_login :
  ∀ (s : MockState) (email password name userSfx acctSfx tokenSfx : string) (numDraw : Z)
    (tokenSfx' : string) (user : UserSummary) (token : string),
    fst (mockAuth.register email password name userSfx acctSfx tokenSfx numDraw s)
      = Ok (user, token) →
    let s' := snd (mockAuth.register email password name userSfx acctSfx tokenSfx numDraw s) in
    fst (mockAuth.login email password tokenSfx' s') = Ok (user, makeId "token" tokenSfx').
Proof.
  intros s email password name userSfx acctSfx tokenSfx numDraw tokenSfx' user token.
  unfold mockAuth.register. unfold_endpoint.
  destruct (truthy email); cbn [negb orb]; [|done].
  destruct (truthy password); cbn [negb]; [|done].
  destruct (find _ (users s)) as [[i u]|] eqn:Hfind.
  { by rewrite bool_decide_eq_true_2 by eauto. }
  rewrite bool_decide_eq_false_2 by (intros [? ?]; done).
  cbn [fst snd]. intros [= <- <-]. unfold mockAuth.login. unfold_endpoint.
  cbn [users setUsers setAccounts setTokens].
  set (newUser := User.mk _ _ _ _).
  assert (Hnew : find (λ u, bool_decide (User.email u = email)
                            && bool_decide (User.password u = password))
                      (users s ++ [newUser])
                 = Some (length (users s), newUser)).
  { unfold find in *. rewrite list_find_app_r.
    - cbn. rewrite !bool_decide_eq_true_2 by done. cbn.
      rewrite decide_True by done. done.
    - apply list_find_None. apply list_find_None in Hfind.
      eapply Forall_impl; [exact Hfind|]. cbn. intros u Hu Hboth. apply Hu.
      apply andb_true_iff in Hboth. tauto. }
  by rewrite Hnew.
Qed.

Lemma register_then_login_witness :
  fst (mockAuth.login "eve@bank.test" "hunter2" "evt002" eveStore)
    = Ok (mkSummary "user-eve001" "eve@bank.test" "Eve", "token-evt002").
Proof.
  exact (register_then_login (mockState 100000000) "eve@bank.test" "hunter2" "Eve"
           "eve001" "eva001" "evt001" 5 "evt002"
           (mkSummary "user-eve001" "eve@bank.test" "Eve") "token-evt001" eq_refl).
Defined.

Lemma filter_none {A} (p : A → bool) (l : list A) :
  (∀ x, x ∈ l → p x = false) → List.filter p l = [].
Proof.
  induction l as [|a l IH]; intros H; [done|].
  cbn. rewrite (H a) by apply list_elem_of_here.
  apply IH. intros x Hx. apply H. by apply list_elem_of_further.
Qed.

(** X11. A new customer starts with one empty account: when [register]
    succeeds with a user id that no stored user and no stored account
    carries, [mockAccounts] called with the returned token lists exactly one
    account, "New Checking" in USD with balance zero. *)
Theorem register_opens_one_empty_account :
  ∀ (s : MockState) (email password name userSfx acctSfx tokenSfx : string) (numDraw : Z)
    (user : UserSummary) (token : string),
    fst (mockAuth.register email password name userSfx acctSfx tokenSfx numDraw s)
      = Ok (user, token) →
    (∀ u, u ∈ users s → User.id u ≠ makeId "user" userSfx) →
    (∀ a, a ∈ accounts s → Account.userId a ≠ makeId "user" userSfx) →
    let s' := snd (mockAuth.register email password name userSfx acctSfx tokenSfx numDraw s) in
    mockAccounts token s' =
      (Ok [ Account.mk (makeId "acct" acctSfx) (makeId "user" userSfx) "New Checking"
                       (toString (numDraw + 1000000000)) 0 "USD" ], s').
Proof.
  intros s email password name userSfx acctSfx tokenSfx numDraw user token Hreg Husers Haccts.
  revert Hreg. unfold mockAuth.register. unfold_endpoint.
  destruct (truthy email); cbn [negb orb]; [|done].
  destruct (truthy password); cbn [negb]; [|done].
  destruct (find _ (users s)) as [[i u]|] eqn:Hfind.
  { by rewrite bool_decide_eq_true_2 by eauto. }
  rewrite bool_decide_eq_false_2 by (intros [? ?]; done).
  cbn [fst snd]. intros [= <- <-]. cbv zeta.
  cbn [users accounts tokens setUsers setAccounts setTokens User.id].
  set (newUser := User.mk _ _ _ _). set (s' := setTokens _ _).
  assert (Hauth : requireAuth (makeId "token" tokenSfx) s' = (Ok newUser, s')).
  { eapply (requireAuth_of_token _ _ (makeId "user" userSfx) (length (users s))).
    - apply lookup_insert_eq.
    - by apply makeId_nonempty.
    - subst s'. unfold setTokens, setAccounts, setUsers. cbn [users].
      unfold find. rewrite list_find_app_r.
      + cbn. rewrite bool_decide_eq_true_2 by done. cbn. done.
      + apply list_find_None, Forall_forall. intros u Hu Hid.
        apply bool_decide_eq_true in Hid. by apply (Husers u Hu). }
  unfold mockAccounts, bind, getState, ret. rewrite Hauth. f_equal. f_equal.
  subst s'. unfold setTokens, setAccounts, setUsers. cbn [accounts].
  rewrite List.filter_app, filter_none.
  - cbn. by rewrite bool_decide_eq_true_2.
  - intros a Ha. apply bool_decide_eq_false. cbn. by apply Haccts.
Qed.

Lemma register_opens_one_empty_account_witness :
  mockAccounts "token-evt001" eveStore =
    (Ok [ Account.mk "acct-eva001" "user-eve001" "New Checking" "1000000005" 0 "USD" ],
     eveStore).
Proof.
  refine (register_opens_one_empty_account (mockState 100000000) "eve@bank.test" "hunter2"
            "Eve" "eve001" "eva001" "evt001" 5
            (mkSummary "user-eve001" "eve@bank.test" "Eve") "token-evt001" eq_refl _ _).
  - intros u Hu. apply list_elem_of_singleton in Hu as ->. discriminate.
  - intros a Ha. apply elem_of_cons in Ha as [->|Ha]; [discriminate|].
    apply list_elem_of_singleton in Ha as ->. discriminate.
Defined.

(** ** The transaction listing, continued *)

Lemma mockTransactions_eq authToken accountId s user :
  requireAuth authToken s = (Ok user, s) →
  mockTransactions authToken accountId s =
    (Ok (sortNewestFirst (List.filter (txVisible s (User.id user) accountId) (transactions s))),
     s).
Proof.
  intros Hauth. unfold mockTransactions, bind, getState, ret. by rewrite Hauth.
Qed.

(** X12. For a signed-in caller [mockTransactions] returns the selected
    transactions newest first, each exactly as often as it is stored: the
    result is sorted by descending timestamp and is a permutation of the
    stored transactions that pass the filter. *)
Theorem mockTransactions_sorted_complete :
  ∀ (s : MockState) (authToken accountId : string) (user : User.t),
    requireAuth authToken s = (Ok user, s) →
    ∃ txs, mockTransactions authToken accountId s = (Ok txs, s) ∧
           newestFirst txs ∧
           txs ≡ₚ List.filter (txVisible s (User.id user) accountId) (transactions s).
Proof.
  intros s authToken accountId user Hauth.
  eexists. split; [by apply mockTransactions_eq|].
  split; [apply sortNewestFirst_sorted | apply sortNewestFirst_perm].
Qed.

Lemma mockTransactions_sorted_complete_witness :
  ∃ txs, mockTransactions "token-tok001" "" completedStore = (Ok txs, completedStore) ∧
         newestFirst txs ∧
         txs ≡ₚ List.filter (txVisible completedStore "user-1" "") (transactions completedStore).
Proof.
  exact (mockTransactions_sorted_complete completedStore "token-tok001" "" demoUser eq_refl).
Defined.





(** X14. Without an [accountId] filter the listing shows the caller's own
    transactions and all of them: a transaction is returned exactly when it
    is stored and its account is one the caller owns. *)
Theorem mockTransactions_unfiltered_exactly_own :
  ∀ (s : MockState) (authToken : string) (user : User.t) (tx : Transaction.t),
    requireAuth authToken s = (Ok user, s) →
    ∃ txs, fst (mockTransactions authToken "" s) = Ok txs ∧
           (tx ∈ txs ↔
              tx ∈ transactions s ∧
              Transaction.accountId tx ∈ ownedAccountIds s (User.id user)).
Proof.
  intros s authToken user tx Hauth.
  rewrite (mockTransactions_eq _ _ _ _ Hauth). eexists. split; [done|].
  rewrite sortNewestFirst_perm, list_elem_of_In, filter_In, <- list_elem_of_In.
  unfold txVisible. change (truthy "") with false. cbv iota.
  unfold includes. by rewrite bool_decide_eq_true.
Qed.

Lemma mockTransactions_unfiltered_exactly_own_witness :
  ∃ txs, fst (mockTransactions "token-evt001" "" eveStore) = Ok txs ∧
         (Transaction.mk "tx-1" "acct-1" "Coffee shop" (-875) 85600000 ∈ txs ↔
            Transaction.mk "tx-1" "acct-1" "Coffee shop" (-875) 85600000 ∈ transactions eveStore ∧
            "acct-1" ∈ ownedAccountIds eveStore "user-eve001").
Proof.
  exact (mockTransactions_unfiltered_exactly_own eveStore "token-evt001"
           (User.mk "user-eve001" "eve@bank.test" "hunter2" "Eve")
           (Transaction.mk "tx-1" "acct-1" "Coffee shop" (-875) 85600000) eq_refl).
Defined.

(** ** The workflow as a whole *)

Lemma snd_route_initiate authToken fromAccountId toAccountId amount sfx now s :
  snd (routeMockRequest (Initiate authToken fromAccountId toAccountId amount sfx now) s)
    = snd (mockTransfer.initiate authToken fromAccountId toAccountId amount sfx now s).
Proof. cbn [routeMockRequest]. apply snd_mapResult. Qed.

Lemma snd_route_sendOtp authToken transferId draw now s :
  snd (routeMockRequest (SendOtp authToken transferId draw now) s)
    = snd (mockTransfer.sendOtp authToken transferId draw now s).
Proof. cbn [routeMockRequest]. apply snd_mapResult. Qed.

Lemma snd_route_verifyOtp authToken transferId code now s :
  snd (routeMockRequest (VerifyOtp authToken transferId code now) s)
    = snd (mockTransfer.verifyOtp authToken transferId code now s).
Proof. cbn [routeMockRequest]. apply snd_mapResult. Qed.

Lemma snd_route_confirm authToken transferId note sfx txNow receiptNow reference s :
  snd (routeMockRequest (Confirm authToken transferId note sfx txNow receiptNow reference) s)
    = snd (mockTransfer.confirm authToken transferId note sfx txNow receiptNow reference s).
Proof. cbn [routeMockRequest]. apply snd_mapResult. Qed.

(** X15. The four steps compose: when a signed-in caller names an own source
    account and a destination, asks for a non-zero amount within the balance
    and presents the passcode no later than five minutes after it was sent,
    then [initiate], [sendOtp], [verifyOtp] and [confirm] in a row leave the
    transfer COMPLETED, the source debited and the destination, if it is a
    stored account, credited, one transaction appended, and users and tokens
    untouched; neither the sign of the amount nor the owner of the
    destination matters. *)
Theorem transfer_end_to_end :
  ∀ (s : MockState) (authToken fromAccountId toAccountId : string) (amount : Z)
    (transferSfx : string) (initiatedAt draw sentAt verifiedAt : Z)
    (note receiptSfx : string) (txNow receiptNow : Z) (reference : string)
    (user : User.t) (i : nat) (fromAccount : Account.t),
    requireAuth authToken s = (Ok user, s) →
    truthy fromAccountId = true → truthy toAccountId = true → amount ≠ 0 →
    find (ownedBy fromAccountId user) (accounts s) = Some (i, fromAccount) →
    amount ≤ Account.balance fromAccount →
    verifiedAt ≤ sentAt + 5 * 60 * 1000 →
    let s' := serve (transferCalls authToken fromAccountId toAccountId amount transferSfx
                       initiatedAt draw sentAt verifiedAt note receiptSfx txNow receiptNow
                       reference) s in
    statusOf s' (makeId "transfer" transferSfx) = Some COMPLETED ∧
    accounts s' = credit toAccountId amount (debit i fromAccount amount (accounts s)) ∧
    transactions s' =
      (transactions s ++
         [Transaction.mk (makeId "tx" receiptSfx) (Account.id fromAccount)
            (orElse note "Transfer") (- amount) txNow])%list ∧
    users s' = users s ∧ tokens s' = tokens s.
Proof.
  intros s authToken fromAccountId toAccountId amount transferSfx initiatedAt draw sentAt
    verifiedAt note receiptSfx txNow receiptNow reference user i fromAccount
    Hauth Hfrom Hto Hamt Hfind Hbal Htime s0. subst s0.
  unfold serve, transferCalls. cbn [foldl].
  (* initiate *)
  rewrite snd_route_initiate, (initiate_eq _ _ _ _ _ _ _ _ _ _ Hauth Hfrom Hto Hfind).
  rewrite (bool_decide_eq_true_2 (amount ≠ 0) Hamt : truthyNum amount = true).
  destruct (Z.gtb_spec amount (Account.balance fromAccount)); [lia|]. cbn [snd].
  set (tid := makeId "transfer" transferSfx).
  set (t0 := Transfer.mk tid _ _ _ _ _ _ _).
  set (s1 := setTransfers s _).
  assert (Hauth1 : requireAuth authToken s1 = (Ok user, s1)) by (by apply (requireAuth_frame _ s)).
  assert (Ht1 : transfers s1 !! tid = Some t0) by apply lookup_insert_eq.
  (* sendOtp *)
  rewrite snd_route_sendOtp, (sendOtp_eq _ _ _ _ _ _ _ Hauth1 Ht1). cbn [snd].
  set (o := Otp.mk _ 0 _). set (s2 := setTransfers s1 _).
  assert (Hauth2 : requireAuth authToken s2 = (Ok user, s2)) by (by apply (requireAuth_frame _ s)).
  assert (Ht2 : transfers s2 !! tid = Some (Transfer.setOtp t0 (Some o)))
    by apply lookup_insert_eq.
  (* verifyOtp *)
  rewrite snd_route_verifyOtp, (verifyOtp_eq _ _ _ _ _ _ _ o Hauth2 Ht2) by done.
  subst o. cbn [Otp.expiresAt Otp.attempts Otp.code].
  destruct (Z.ltb_spec (sentAt + 300000) verifiedAt); [lia|].
  change (0 >=? 5) with false. cbv iota.
  rewrite bool_decide_eq_false_2 by (intros ?; done). cbn [snd].
  set (t2 := Transfer.setStatus _ VERIFIED). set (s3 := setTransfers s2 _).
  assert (Hauth3 : requireAuth authToken s3 = (Ok user, s3)) by (by apply (requireAuth_frame _ s)).
  assert (Ht3 : transfers s3 !! tid = Some t2) by apply lookup_insert_eq.
  (* confirm *)
  destruct (confirm_eq authToken tid note receiptSfx txNow receiptNow reference s3 user t2
              i fromAccount Hauth3 Ht3 eq_refl Hfind Hbal) as [receipt Hconfirm].
  rewrite snd_route_confirm, Hconfirm. cbn [snd].
  unfold confirmed, statusOf. cbn [transfers accounts transactions users tokens].
  rewrite lookup_insert_eq. done.
Qed.

Lemma transfer_end_to_end_witness :
  let s' := serve (transferCalls "token-tok001" "acct-1" "acct-2" 5000 "abc123"
                     100000001 23456 100000002 100000003 "" "rcp001" 100000004 100000005
                     "REF-AAAA-BBBB") demoStore in
  statusOf s' "transfer-abc123" = Some COMPLETED ∧
  balanceAt s' 0 = Some 423075 ∧ balanceAt s' 1 = Some 1330035.
Proof.
  intros s'.
  destruct (transfer_end_to_end demoStore "token-tok001" "acct-1" "acct-2" 5000 "abc123"
              100000001 23456 100000002 100000003 "" "rcp001" 100000004 100000005
              "REF-AAAA-BBBB" demoUser 0%nat
              (Account.mk "acct-1" "user-1" "Everyday Checking" "1234567890" 428075 "USD")
              eq_refl eq_refl eq_refl) as (Hst & Haccts & _); [lia | reflexivity | simpl; lia | lia |].
  split; [exact Hst|]. subst s'. unfold balanceAt. rewrite Haccts. split; reflexivity.
Defined.

(** X16. Wrong passcodes are counted one by one: while the challenge has not
    expired, each wrong code presented by a signed-in caller raises the
    attempt counter by exactly one, up to five, and leaves the code, the
    expiry, the status and the rest of the store as they were. *)
Theorem wrong_codes_are_counted :
  ∀ (tries : list (string * Z)) (s : MockState) (authToken transferId : string)
    (user : User.t) (t : Transfer.t) (o : Otp.t),
    requireAuth authToken s = (Ok user, s) →
    transfers s !! transferId = Some t →
    Transfer.otp t = Some o →
    Forall (λ p, fst p ≠ Otp.code o ∧ snd p ≤ Otp.expiresAt o) tries →
    Otp.attempts o + Z.of_nat (length tries) ≤ 5 →
    let s' := serve (verifyCalls authToken transferId tries) s in
    transfers s' !! transferId =
      Some (Transfer.setOtp t
              (Some (Otp.mk (Otp.code o) (Otp.attempts o + Z.of_nat (length tries))
                            (Otp.expiresAt o)))) ∧
    (∀ other, other ≠ transferId → transfers s' !! other = transfers s !! other) ∧
    users s' = users s ∧ tokens s' = tokens s ∧
    accounts s' = accounts s ∧ transactions s' = transactions s.
Proof.
  induction tries as [|[c n] tries IH];
    intros s authToken transferId user t o Hauth Ht Ho Hall Hcount s0; subst s0.
  - unfold verifyCalls, serve. cbn [fmap list_fmap foldl length Z.of_nat].
    rewrite Ht, Z.add_0_r. repeat split; try done.
    f_equal. destruct t, o. cbn in *. by subst.
  - apply Forall_cons in Hall as [[Hc Hn] Hall]. cbn [fst snd] in Hc, Hn.
    cbn [length] in Hcount. rewrite Nat2Z.inj_succ in Hcount.
    unfold verifyCalls, serve in *. cbn [fmap list_fmap foldl fst snd].
    rewrite snd_route_verifyOtp, (verifyOtp_eq _ _ _ _ _ _ _ _ Hauth Ht Ho).
    destruct (Z.ltb_spec (Otp.expiresAt o) n); [lia|].
    destruct (Z.geb_spec (Otp.attempts o) 5); [lia|].
    rewrite bool_decide_eq_true_2 by done. cbn [snd].
    set (s1 := setTransfers s _).
    destruct (IH s1 authToken transferId user
                (Transfer.setOtp t (Some (Otp.bumpAttempts o))) (Otp.bumpAttempts o))
      as (Hlook & Hother & Hu & Htok & Ha & Htx).
    + by apply (requireAuth_frame _ s).
    + apply lookup_insert_eq.
    + done.
    + done.
    + cbn [Otp.bumpAttempts Otp.attempts]. lia.
    + rewrite Hlook. cbn [length]. rewrite Nat2Z.inj_succ.
      repeat split; try done.
      * f_equal. cbn. f_equal. f_equal. f_equal. lia.
      * intros other Hne. rewrite (Hother other Hne). subst s1.
        cbn [transfers setTransfers]. by rewrite lookup_insert_ne.
Qed.

Lemma wrong_codes_are_counted_witness :
  transfers lockedStore !! "transfer-abc123" =
    Some (Transfer.mk "transfer-abc123" "user-1" "acct-1" "acct-2" 5000 PENDING_OTP
            (Some (Otp.mk "123456" 5 100300002)) 100000001).
Proof.
  refine (proj1 (wrong_codes_are_counted (replicate 5 ("000000", 100000003)) otpStore
            "token-tok001" "transfer-abc123" demoUser
            (Transfer.mk "transfer-abc123" "user-1" "acct-1" "acct-2" 5000 PENDING_OTP
               (Some (Otp.mk "123456" 0 100300002)) 100000001)
            (Otp.mk "123456" 0 100300002) eq_refl eq_refl eq_refl _ _)).
  - repeat constructor; simpl; (discriminate || lia).
  - simpl. lia.
Defined.

(** X17. For a transfer whose amount and whose source balance are finite
    numbers, as all numbers of this development are, [confirm] never
    overdraws the source: after a successful [confirm] whose destination is
    not the source account itself, the balance of the source account is not
    negative.  (A NaN amount, which [initiate] stores for a request whose
    amount is a string that is not a numeral, passes the comparison of
    [confirm] and leaves the balance NaN; such amounts are outside the
    statement.) *)
Theorem confirm_never_overdraws :
  ∀ (s : MockState) (authToken transferId note sfx : string) (txNow receiptNow : Z)
    (reference : string) (user : User.t) (t : Transfer.t) (i : nat) (fromAccount : Account.t),
    let out := mockTransfer.confirm authToken transferId note sfx txNow receiptNow reference s in
    isOk (fst out) →
    requireAuth authToken s = (Ok user, s) →
    transfers s !! transferId = Some t →
    find (ownedBy (Transfer.fromAccountId t) user) (accounts s) = Some (i, fromAccount) →
    fst <$> find (hasId (Transfer.toAccountId t)) (accounts s) ≠ Some i →
    ∃ b, balanceAt (snd out) i = Some b ∧ 0 ≤ b.
Proof.
  intros s authToken transferId note sfx txNow receiptNow reference user t i fromAccount out
    Hok Hauth Ht Hfrom Hto. subst out.
  destruct (confirm_ok_inv _ _ _ _ _ _ _ _ Hok)
    as (user' & t' & i' & fromAccount' & Hauth' & Ht' & Hst & Hfrom' & Hamt).
  rewrite Hauth in Hauth'. injection Hauth' as <-.
  rewrite Ht in Ht'. injection Ht' as <-.
  rewrite Hfrom in Hfrom'. injection Hfrom' as <- <-.
  destruct (confirm_eq _ transferId note sfx txNow receiptNow reference _ _ _ _ _
              Hauth Ht Hst Hfrom Hamt) as [receipt ->].
  cbn [snd]. unfold balanceAt, confirmed. cbn [accounts].
  apply find_Some in Hfrom as [Hi _].
  assert (Hi' : (i < length (accounts s))%nat) by (by eapply lookup_lt_Some).
  exists (Account.balance fromAccount - Transfer.amount t). split; [|lia].
  unfold credit. rewrite (find_debit_hasId _ _ _ _ _ Hi).
  destruct (find (hasId (Transfer.toAccountId t)) (accounts s)) as [[j z]|] eqn:Hfindto.
  - assert (j ≠ i) by (intros ->; by apply Hto).
    rewrite list_lookup_insert_ne by done.
    unfold debit. by rewrite list_lookup_insert_eq.
  - unfold debit. by rewrite list_lookup_insert_eq.
Qed.

Lemma confirm_never_overdraws_witness :
  let s := snd (mockTransfer.verifyOtp "token-tok001" "transfer-abc123" "123456" 100000003
                  otpStore) in
  ∃ b, balanceAt (snd (mockTransfer.confirm "token-tok001" "transfer-abc123" "" "rcp001"
                         100000004 100000005 "REF-AAAA-BBBB" s)) 0 = Some b ∧ 0 ≤ b.
Proof.
  intros s.
  refine (confirm_never_overdraws s "token-tok001" "transfer-abc123" "" "rcp001"
    100000004 100000005 "REF-AAAA-BBBB" demoUser
    (Transfer.mk "transfer-abc123" "user-1" "acct-1" "acct-2" 5000 VERIFIED
       (Some (Otp.mk "123456" 0 100300002)) 100000001)
    0%nat (Account.mk "acct-1" "user-1" "Everyday Checking" "1234567890" 428075 "USD")
    I eq_refl eq_refl eq_refl _).
  vm_compute. discriminate.
Defined.

(** ** The router on paths *)

Lemma routeOf_unknown accountIdOf path method body authToken d :
  (stripLeadingSlashes path, method) ∉ exactRoutes →
  String.prefix "transactions" (stripLeadingSlashes path) && bool_decide (method = "GET") = false →
  routeOf accountIdOf path method body authToken d = Unknown.
Proof.
  intros Hexact Hprefix. unfold routeOf. cbv zeta.
  generalize dependent (stripLeadingSlashes path). intros np Hexact Hprefix.
  rewrite Hprefix.
  assert (Hno : ∀ p m, (p, m) ∈ exactRoutes →
                       bool_decide (np = p) && bool_decide (method = m) = false).
  { intros p m Hin. apply andb_false_iff.
    destruct (decide (np = p)) as [->|]; [|left; by apply bool_decide_eq_false].
    right. apply bool_decide_eq_false. by intros ->. }
  rewrite (Hno "auth/register" "POST"), (Hno "auth/login" "POST"), (Hno "auth/me" "GET"),
    (Hno "accounts" "GET"), (Hno "transfer/initiate" "POST"),
    (Hno "transfer/send-otp" "POST"), (Hno "transfer/verify-otp" "POST"),
    (Hno "transfer/confirm" "POST");
    solve [done | unfold exactRoutes;
                  repeat first [apply list_elem_of_here | apply list_elem_of_further]].
Qed.

(** X18. The router serves a request only when its path, leading slashes
    removed, and its method are one of the eight exact routes, or the method
    is GET and the path starts with "transactions"; every other request is
    answered with CONTACT_OFFICER and leaves the store as it was. *)
Theorem unknown_endpoint_rejected :
  ∀ (accountIdOf : string → string) (path method : string) (body : Body)
    (authToken : string) (d : Draws) (s : MockState),
    (stripLeadingSlashes path, method) ∉ exactRoutes →
    ¬ (String.prefix "transactions" (stripLeadingSlashes path) = true ∧ method = "GET") →
    routeMockRequestAt accountIdOf path method body authToken d s = (Err CONTACT_OFFICER, s).
Proof.
  intros accountIdOf path method body authToken d s Hexact Hprefix.
  unfold routeMockRequestAt. rewrite routeOf_unknown; [done|done|].
  apply andb_false_iff.
  destruct (String.prefix "transactions" (stripLeadingSlashes path)); [|by left].
  right. apply bool_decide_eq_false. tauto.
Qed.

Lemma unknown_endpoint_rejected_witness :
  routeMockRequestAt (λ _, "") "/auth/login" "GET"
    (mkBody "demo@bank.test" "password123" "" "" "" "" 0 "" "" "") ""
    (mkDraws "" "" "tok001" 0 "" 0 0 "" 0 0 "") (mockState 0)
  = (Err CONTACT_OFFICER, mockState 0).
Proof.
  apply unknown_endpoint_rejected.
  - change (stripLeadingSlashes "/auth/login") with "auth/login".
    unfold exactRoutes. intros H.
    repeat (apply elem_of_cons in H as [H|H]; [discriminate|]).
    by apply elem_of_nil in H.
  - intros [H _]. vm_compute in H. discriminate.
Defined.

(** ** The transfer page *)

(** X19. The transfer page is the sign check the mock API leaves out: every
    request its submit handler sends carries a source account that is among
    the loaded accounts, an amount strictly greater than zero and not above
    the loaded balance of that account, and exactly one destination, either
    an internal [toAccountId] or an external [toAccount]. *)
Theorem submitTransfer_validates :
  ∀ (fromAccountId destinationId externalAccount : string) (amount : option Z)
    (note : string) (accts : list Account.t) (path method : string) (body : Body),
    submitTransfer fromAccountId destinationId externalAccount amount note accts
      = Send path method body →
    amount = Some (b_amount body) ∧ 0 < b_amount body ∧
    b_fromAccountId body = fromAccountId ∧ fromAccountId ≠ "" ∧
    (∃ i fromAccount, find (hasId fromAccountId) accts = Some (i, fromAccount) ∧
                      b_amount body ≤ Account.balance fromAccount) ∧
    ((b_toAccountId body = destinationId ∧ destinationId ≠ "" ∧ b_toAccount body = "") ∨
     (b_toAccountId body = "" ∧ b_toAccount body = externalAccount ∧ externalAccount ≠ "")) ∧
    b_note body = note.
Proof.
  intros fromAccountId destinationId externalAccount amount note accts path method body.
  unfold submitTransfer, truthy.
  destruct (decide (fromAccountId ≠ "")) as [Hfrom|Hfrom].
  2:{ by rewrite (bool_decide_eq_false_2 _ Hfrom). }
  rewrite (bool_decide_eq_true_2 _ Hfrom). cbn [negb].
  destruct amount as [amount|].
  2:{ by destruct (negb _ && negb _). }
  destruct (find (hasId fromAccountId) accts) as [[i fromAccount]|] eqn:Hfind.
  2:{ destruct (negb _ && negb _); [done|]. by destruct (amount <=? 0). }
  destruct (decide (destinationId ≠ "")) as [Hdest|Hdest].
  - rewrite (bool_decide_eq_true_2 _ Hdest). cbn [negb andb].
    destruct (Z.leb_spec amount 0); [done|].
    destruct (Z.gtb_spec amount (Account.balance fromAccount)); [done|].
    intros [= <- <- <-]. cbn. repeat split; eauto.
  - rewrite (bool_decide_eq_false_2 _ Hdest). cbn [negb andb].
    destruct (decide (externalAccount ≠ "")) as [Hext|Hext].
    2:{ by rewrite (bool_decide_eq_false_2 _ Hext). }
    rewrite (bool_decide_eq_true_2 _ Hext). cbn [negb].
    destruct (Z.leb_spec amount 0); [done|].
    destruct (Z.gtb_spec amount (Account.balance fromAccount)); [done|].
    intros [= <- <- <-]. cbn. repeat split; eauto.
Qed.

Lemma submitTransfer_validates_witness :
  0 < b_amount (mkBody "" "" "" "acct-1" "acct-2" "" 5000 "" "" "rent").
Proof.
  exact (proj1 (proj2 (submitTransfer_validates "acct-1" "acct-2" "" (Some 5000) "rent"
    (accounts demoStore) "/transfers" "POST"
    (mkBody "" "" "" "acct-1" "acct-2" "" 5000 "" "" "rent") eq_refl))).
Defined.

(** X20. The transfer page and the mock router do not meet: whatever the form
    holds, a request the submit handler sends goes to "/transfers", which is
    no route of the mock, so it is answered with CONTACT_OFFICER and no
    transfer is stored and no balance moves. *)
Theorem submitTransfer_never_served :
  ∀ (fromAccountId destinationId externalAccount : string) (amount : option Z)
    (note : string) (accts : list Account.t) (path method : string) (body : Body)
    (accountIdOf : string → string) (authToken : string) (d : Draws) (s : MockState),
    submitTransfer fromAccountId destinationId externalAccount amount note accts
      = Send path method body →
    routeMockRequestAt accountIdOf path method body authToken d s = (Err CONTACT_OFFICER, s).
Proof.
  intros fromAccountId destinationId externalAccount amount note accts path method body
    accountIdOf authToken d s Hsend.
  assert (path = "/transfers" ∧ method = "POST") as [-> ->].
  { revert Hsend. unfold submitTransfer.
    repeat case_match; try done; by intros [= <- <- _]. }
  reflexivity.
Qed.

Lemma submitTransfer_never_served_witness :
  routeMockRequestAt (λ _, "") "/transfers" "POST"
    (mkBody "" "" "" "acct-1" "acct-2" "" 5000 "" "" "rent") "token-tok001"
    (mkDraws "" "" "" 0 "abc123" 100000001 0 "" 0 0 "") demoStore
  = (Err CONTACT_OFFICER, demoStore).
Proof.
  exact (submitTransfer_never_served "acct-1" "acct-2" "" (Some 5000) "rent"
    (accounts demoStore) "/transfers" "POST"
    (mkBody "" "" "" "acct-1" "acct-2" "" 5000 "" "" "rent")
    (λ _, "") "token-tok001" (mkDraws "" "" "" 0 "abc123" 100000001 0 "" 0 0 "") demoStore
    eq_refl).
Defined.

(** ** The shape of an error *)

Lemma orElse_truthy a b : truthy b = true → truthy (orElse a b) = true.
Proof. intros Hb. unfold orElse. by destruct (truthy a) eqn:Ha. Qed.

Lemma orElse_of_truthy a b : truthy a = true → orElse a b = a.
Proof. intros Ha. unfold orElse. by rewrite Ha. Qed.

(** X21. Whatever [handleFailure] is given, the error it throws has a
    non-empty [errorCode], [message] and [requestId], keeps each of the three
    that was supplied, and is a fixed point: handling it again, with any
    draws, throws the same error. *)
Theorem normalizedError_fixed_shape :
  ∀ (errorLike : option ErrorShape) (r1 r2 r1' r2' : string),
    let e := normalizedError errorLike r1 r2 in
    truthy (e_errorCode e) = true ∧ truthy (e_message e) = true ∧
    truthy (e_requestId e) = true ∧
    (∀ given, errorLike = Some given →
       (truthy (e_errorCode given) = true → e_errorCode e = e_errorCode given) ∧
       (truthy (e_message given) = true → e_message e = e_message given) ∧
       (truthy (e_requestId given) = true → e_requestId e = e_requestId given)) ∧
    normalizedError (Some e) r1' r2' = e.
Proof.
  intros errorLike r1 r2 r1' r2' e.
  assert (H1 : truthy (e_errorCode e) = true) by (by apply orElse_truthy).
  assert (H2 : truthy (e_message e) = true) by (by apply orElse_truthy).
  assert (H3 : truthy (e_requestId e) = true) by (by apply orElse_truthy).
  repeat split; try done.
  - intros Ht. subst e errorLike. cbn. by apply orElse_of_truthy.
  - intros Ht. subst e errorLike. cbn. by apply orElse_of_truthy.
  - intros Ht. subst e errorLike. cbn. by apply orElse_of_truthy.
  - unfold normalizedError at 1. cbn [from_option].
    rewrite !orElse_of_truthy by done. by destruct e.
Qed.

Lemma normalizedError_fixed_shape_witness :
  e_errorCode (normalizedError (Some (mkErrorShape "OTP_LOCKED" "" "")) "1A2B" "3C4D")
    = "OTP_LOCKED".
Proof.
  destruct (normalizedError_fixed_shape (Some (mkErrorShape "OTP_LOCKED" "" ""))
              "1A2B" "3C4D" "" "") as (_ & _ & _ & Hkeep & _).
  destruct (Hkeep (mkErrorShape "OTP_LOCKED" "" "") eq_refl) as [Hcode _].
  exact (Hcode eq_refl).
Defined.

(** X22. An error that leaves [apiRequest] has the fixed shape: when every
    thrown object that carries an [errorCode] came out of [handleFailure],
    the error passed on to the caller has a non-empty [errorCode], [message]
    and [requestId]; an error without a code keeps its message and becomes
    CONTACT_OFFICER. *)
Theorem apiRequest_errors_have_fixed_shape :
  ∀ (error : ErrorShape) (r1 r2 : string),
    (truthy (e_errorCode error) = true →
       ∃ errorLike q1 q2, error = normalizedError errorLike q1 q2) →
    let thrown := apiRequestCatch error r1 r2 in
    truthy (e_errorCode thrown) = true ∧ truthy (e_message thrown) = true ∧
    truthy (e_requestId thrown) = true ∧
    (truthy (e_errorCode error) = false →
       e_errorCode thrown = "CONTACT_OFFICER" ∧
       (truthy (e_message error) = true → e_message thrown = e_message error)).
Proof.
  intros error r1 r2 Hnormal thrown. subst thrown. unfold apiRequestCatch.
  destruct (truthy (e_errorCode error)) eqn:Hcode.
  - destruct (Hnormal eq_refl) as (errorLike & q1 & q2 & ->).
    repeat split; try done; cbn; by apply orElse_truthy.
  - repeat split; try (cbn; by apply orElse_truthy).
    intros Hmsg. cbn. rewrite (orElse_of_truthy _ _ Hmsg).
    by apply orElse_of_truthy.
Qed.

Lemma apiRequest_errors_have_fixed_shape_witness :
  let thrown := apiRequestCatch (mkErrorShape "" "path.replace is not a function" "")
                  "1A2B" "3C4D" in
  thrown = mkErrorShape "CONTACT_OFFICER" "path.replace is not a function" "REF-1A2B-3C4D" ∧
  truthy (e_requestId thrown) = true.
Proof.
  intros thrown. split; [reflexivity|].
  refine (proj1 (proj2 (proj2 (apiRequest_errors_have_fixed_shape
    (mkErrorShape "" "path.replace is not a function" "") "1A2B" "3C4D" _)))).
  intros Hcode. discriminate Hcode.
Defined.

(** ** The backend error handler *)

(** X23. The backend error handler always answers in the fixed shape and
    remembers the request id: the status it sends is never 0, the three
    fields of the body are never empty, a [requestId] or [x-request-id] that
    the request carries is reused, and the id it sends is stored on the
    request, so that a second error on the same request is answered with the
    same id whatever the clock and the random draw are by then. *)
Theorem errorHandler_fixed_shape :
  ∀ (err err' : Backend.Err) (req : Backend.Req) (now now' : Z) (hex hex' : string),
    let out := Backend.errorHandler err req now hex in
    let body := Backend.sentBody (snd out) in
    Backend.sentStatus (snd out) ≠ 0 ∧
    truthy (e_errorCode body) = true ∧ truthy (e_message body) = true ∧
    truthy (e_requestId body) = true ∧
    (truthy (Backend.requestId req) = true → e_requestId body = Backend.requestId req) ∧
    (truthy (Backend.requestId req) = false → truthy (Backend.xRequestId req) = true →
       e_requestId body = Backend.xRequestId req) ∧
    Backend.requestId (fst out) = e_requestId body ∧
    e_requestId (Backend.sentBody (snd (Backend.errorHandler err' (fst out) now' hex')))
      = e_requestId body.
Proof.
  intros err err' req now now' hex hex' out body. subst body out.
  unfold Backend.errorHandler. cbn [fst snd Backend.sentStatus Backend.sentBody
    e_errorCode e_message e_requestId Backend.requestId Backend.xRequestId].
  assert (Hid : truthy (orElse (Backend.requestId req)
                          (orElse (Backend.xRequestId req) (Backend.createRequestId now hex)))
                = true).
  { apply orElse_truthy, orElse_truthy. done. }
  repeat split.
  - unfold truthyNum. case_bool_decide; [done | lia].
  - by apply orElse_truthy.
  - by apply orElse_truthy.
  - exact Hid.
  - intros Ht. by apply orElse_of_truthy.
  - intros Hf Ht. unfold orElse at 1. rewrite Hf. by apply orElse_of_truthy.
  - by apply orElse_of_truthy.
Qed.

Lemma errorHandler_fixed_shape_witness :
  e_requestId (Backend.sentBody (snd (Backend.errorHandler
     (Backend.mkErr 404 "NOT_FOUND" "") (Backend.mkReq "" "abc-123") 1700000000000 "9f3a1c")))
    = "abc-123".
Proof.
  destruct (errorHandler_fixed_shape (Backend.mkErr 404 "NOT_FOUND" "")
              (Backend.mkErr 0 "" "") (Backend.mkReq "" "abc-123")
              1700000000000 0 "9f3a1c" "") as (_ & _ & _ & _ & _ & Hheader & _).
  exact (Hheader eq_refl eq_refl).
Defined.

(** ** Masking an account number *)

Module formattersFacts.
Import formatters.
#[local] Open Scope list_scope.

Lemma plain_bullet : plain bullet.
Proof. by split. Qed.

Lemma plain_digit c : isDigitUnit c = true → plain c.
Proof.
  unfold isDigitUnit, plain, isWhiteSpace, isLineTerminator.
  rewrite andb_true_iff, !N.leb_le. intros [H1 H2].
  repeat match goal with
  | |- context [(c =? ?k)%N] => destruct (N.eqb_spec c k); [lia|]
  end.
  destruct (N.leb_spec 8192 c); [lia|]. done.
Qed.

Lemma plain_not_space c : plain c → (c =? space)%N = false.
Proof.
  intros [_ Hws]. destruct (N.eqb_spec c space) as [->|]; [|done]. by vm_compute in Hws.
Qed.

Lemma flush_concat cur : concat (flush cur) = cur.
Proof. destruct cur; [done|]. cbn. by rewrite app_nil_r. Qed.

Lemma matchGroups_concat cur str :
  Forall plain str → concat (matchGroups cur str) = cur ++ str.
Proof.
  intros Hstr. revert cur. induction Hstr as [|c str [Hlt _] _ IH]; intros cur.
  { cbn. by rewrite flush_concat, app_nil_r. }
  cbn [matchGroups]. rewrite Hlt.
  destruct (length cur =? 3)%nat.
  - cbn [concat]. rewrite IH. cbn. by rewrite <- app_assoc.
  - rewrite IH. by rewrite <- app_assoc.
Qed.

Lemma matchGroups_plain cur str :
  Forall plain cur → Forall plain str → Forall (Forall plain) (matchGroups cur str).
Proof.
  intros Hcur Hstr. revert cur Hcur.
  induction Hstr as [|c str Hc _ IH]; intros cur Hcur.
  { cbn. destruct cur; [done|]. by apply Forall_singleton. }
  cbn [matchGroups]. destruct Hc as [Hlt Hws]. rewrite Hlt.
  assert (Forall plain (cur ++ [c])).
  { apply Forall_app. split; [done|]. by apply Forall_singleton. }
  destruct (length cur =? 3)%nat.
  - apply Forall_cons. split; [done|]. by apply IH.
  - by apply IH.
Qed.

Lemma matchGroups_short cur str :
  (length cur ≤ 3)%nat → Forall (λ g, (length g ≤ 4)%nat) (matchGroups cur str).
Proof.
  revert cur. induction str as [|c str IH]; intros cur Hcur.
  { cbn. destruct cur; [done|]. apply Forall_singleton. lia. }
  cbn [matchGroups]. destruct (isLineTerminator c).
  - apply Forall_app. split.
    + destruct cur; [done|]. apply Forall_singleton. lia.
    + apply IH. cbn. lia.
  - destruct (Nat.eqb_spec (length cur) 3).
    + apply Forall_cons. split; [rewrite length_app; cbn; lia|]. apply IH. cbn. lia.
    + apply IH. rewrite length_app. cbn. lia.
Qed.

Lemma unspaced_app l1 l2 : unspaced (l1 ++ l2) = unspaced l1 ++ unspaced l2.
Proof. apply List.filter_app. Qed.

Lemma unspaced_plain l : Forall plain l → unspaced l = l.
Proof.
  induction 1 as [|c l Hc _ IH]; [done|].
  unfold unspaced in *. cbn. rewrite (plain_not_space c Hc). cbn. by rewrite IH.
Qed.

Lemma unspaced_join groups :
  Forall (Forall plain) groups → unspaced (join groups) = concat groups.
Proof.
  induction 1 as [|g groups Hg Hgs IH]; [done|].
  cbn [join concat]. destruct groups as [|g' groups].
  - rewrite app_nil_r. by apply unspaced_plain.
  - rewrite unspaced_app, (unspaced_plain g Hg).
    change (unspaced (space :: join (g' :: groups))) with (unspaced (join (g' :: groups))).
    by rewrite IH.
Qed.

Lemma unspaced_trimStart l : Forall tidy l → unspaced (trimStart l) = unspaced l.
Proof.
  induction 1 as [|c l Hc _ IH]; [done|].
  cbn [trimStart]. destruct (isWhiteSpace c) eqn:Hws; [|done].
  rewrite IH. rewrite (Hc Hws). done.
Qed.

Lemma trimStart_tidy l : Forall tidy l → Forall tidy (trimStart l).
Proof.
  induction 1 as [|c l Hc Hl IH]; [done|].
  cbn [trimStart]. destruct (isWhiteSpace c); [done|]. by apply Forall_cons.
Qed.

Lemma unspaced_rev l : unspaced (rev l) = rev (unspaced l).
Proof.
  induction l as [|c l IH]; [done|].
  cbn [rev]. rewrite unspaced_app, IH. unfold unspaced. cbn [List.filter].
  destruct (negb (c =? space)%N); cbn [rev]; [done|].
  by rewrite app_nil_r.
Qed.

Lemma unspaced_trim l : Forall tidy l → unspaced (trim l) = unspaced l.
Proof.
  intros Hl. unfold trim.
  rewrite unspaced_rev, unspaced_trimStart, unspaced_rev, unspaced_trimStart, rev_involutive;
    [done|done|].
  apply Forall_rev. by apply trimStart_tidy.
Qed.

Lemma join_tidy groups : Forall (Forall plain) groups → Forall tidy (join groups).
Proof.
  assert (Hp : ∀ g, Forall plain g → Forall tidy g).
  { intros g Hg. eapply Forall_impl; [exact Hg|]. intros c [_ Hws] Hws'. congruence. }
  induction 1 as [|g groups Hg Hgs IH]; [done|].
  cbn [join]. destruct groups as [|g' groups]; [by apply Hp|].
  apply Forall_app. split; [by apply Hp|]. apply Forall_cons. split; [|done].
  by intros _.
Qed.

Lemma flush_nonempty cur : Forall (λ g, g ≠ []) (flush cur).
Proof. destruct cur; [done|]. by apply Forall_singleton. Qed.

Lemma matchGroups_nonempty cur str : Forall (λ g, g ≠ []) (matchGroups cur str).
Proof.
  revert cur. induction str as [|c str IH]; intros cur; cbn [matchGroups].
  { apply flush_nonempty. }
  destruct (isLineTerminator c).
  - apply Forall_app. split; [apply flush_nonempty | apply IH].
  - destruct (length cur =? 3)%nat; [|apply IH].
    apply Forall_cons. split; [by destruct cur | apply IH].
Qed.

Lemma rev_head_plain l :
  l ≠ [] → Forall plain l → ∃ c r, rev l = c :: r ∧ plain c.
Proof.
  intros Hne Hl. destruct (rev l) as [|c r] eqn:Hrev.
  - apply (f_equal (@rev N)) in Hrev. rewrite rev_involutive in Hrev. by subst.
  - exists c, r. split; [done|].
    rewrite Forall_forall in Hl. apply Hl, list_elem_of_In, in_rev.
    rewrite Hrev. by left.
Qed.

Lemma join_rev_head_plain groups :
  groups ≠ [] → Forall (λ g, g ≠ []) groups → Forall (Forall plain) groups →
  ∃ c r, rev (join groups) = c :: r ∧ plain c.
Proof.
  induction groups as [|g groups IH]; [done|].
  intros _ Hne Hplain.
  apply Forall_cons in Hne as [Hg Hne]. apply Forall_cons in Hplain as [Hgp Hplain].
  destruct groups as [|g' groups].
  - cbn [join]. by apply rev_head_plain.
  - destruct (IH ltac:(done) Hne Hplain) as (c & r & Hrev & Hc).
    exists c, ((r ++ [space]) ++ rev g). split; [|done].
    change (join (g :: g' :: groups)) with (g ++ space :: join (g' :: groups)).
    rewrite rev_app_distr. cbn [rev]. rewrite Hrev. done.
Qed.

(** Trimming a joined list of non-empty groups of bullets and digits changes
    nothing. *)
Lemma trim_join groups :
  Forall (λ g, g ≠ []) groups → Forall (Forall plain) groups →
  trim (join groups) = join groups.
Proof.
  intros Hne Hplain. destruct groups as [|g groups]; [done|].
  destruct (join_rev_head_plain (g :: groups) ltac:(done) Hne Hplain)
    as (c & r & Hrev & [_ Hc]).
  assert (Hhead : trimStart (join (g :: groups)) = join (g :: groups)).
  { apply Forall_cons in Hne as [Hg _]. apply Forall_cons in Hplain as [Hgp _].
    destruct g as [|c0 g]; [done|]. apply Forall_cons in Hgp as [[_ Hc0] _].
    destruct groups; cbn [join app trimStart]; by rewrite Hc0. }
  unfold trim. rewrite Hhead, Hrev. cbn [trimStart]. rewrite Hc, <- Hrev.
  apply rev_involutive.
Qed.

(** The masked digits before grouping. *)
Lemma maskAccountNumber_nonempty str :
  str ≠ [] →
  let digits := List.filter isDigitUnit str in
  let w := replicate (length digits - 4) bullet ++ drop (length digits - 4) digits in
  Forall plain w ∧
  maskAccountNumber str =
    trim (match join (matchGroups [] w) with [] => w | j => j end).
Proof.
  intros Hne digits w. split.
  - apply Forall_app. split.
    + apply Forall_replicate. apply plain_bullet.
    + apply Forall_drop, Forall_forall.
      intros c Hc. apply list_elem_of_In, filter_In in Hc as [_ Hc]. by apply plain_digit.
  - destruct str as [|c0 str0]; [done|].
    unfold maskAccountNumber. cbv zeta. fold digits.
    replace (length digits - length (drop (length digits - 4) digits))%nat
      with (length digits - 4)%nat by (rewrite length_drop; lia).
    fold w. by destruct (join (matchGroups [] w)).
Qed.

End formattersFacts.

(** X24. [maskAccountNumber] shows the last four digits and nothing else of
    the number: for a non-empty input with digits [d], the result without
    its spaces is one bullet for every digit but the last four, followed by
    the last four digits of [d] (all of [d] when there are fewer); no
    character of the input that is not a digit appears, and an input without
    any digit gives the empty string. *)
Theorem maskAccountNumber_reveals_last_four :
  ∀ (str : list N),
    str ≠ [] →
    let digits := List.filter formatters.isDigitUnit str in
    formatters.unspaced (formatters.maskAccountNumber str) =
      (replicate (length digits - 4) formatters.bullet
         ++ drop (length digits - 4) digits)%list ∧
    (digits = [] → formatters.maskAccountNumber str = []).
Proof.
  intros str Hne digits.
  destruct (formattersFacts.maskAccountNumber_nonempty str Hne) as [Hw ->].
  fold digits. set (w := (replicate _ formatters.bullet ++ drop _ digits)%list) in *.
  pose proof (formattersFacts.matchGroups_plain [] w (Forall_nil_2 _) Hw) as Hgroups.
  pose proof (formattersFacts.matchGroups_concat [] w Hw) as Hconcat.
  pose proof (formattersFacts.unspaced_join _ Hgroups) as Hjoin.
  rewrite Hconcat in Hjoin. cbn [app] in Hjoin.
  split.
  - destruct (formatters.join (formatters.matchGroups [] w)) as [|c j] eqn:Hj.
    + cbn in Hjoin. by rewrite <- Hjoin.
    + rewrite formattersFacts.unspaced_trim; [done|].
      rewrite <- Hj. by apply formattersFacts.join_tidy.
  - intros Hnil. subst w. by rewrite Hnil.
Qed.

Lemma maskAccountNumber_reveals_last_four_witness :
  (* "1234-567890" *)
  formatters.unspaced (formatters.maskAccountNumber
    [49; 50; 51; 52; 45; 53; 54; 55; 56; 57; 48]%N)
  = (replicate 6 formatters.bullet ++ [55; 56; 57; 48]%N)%list.
Proof.
  refine (proj1 (maskAccountNumber_reveals_last_four
    [49; 50; 51; 52; 45; 53; 54; 55; 56; 57; 48]%N _)).
  discriminate.
Defined.

(** X25. The masked number is laid out in groups of four: for an input with
    at least one digit, the result is the masked digits cut into non-empty
    runs of at most four characters, the runs joined by single spaces, with
    nothing before, between or after them. *)
Theorem maskAccountNumber_groups_of_four :
  ∀ (str : list N),
    let digits := List.filter formatters.isDigitUnit str in
    digits ≠ [] →
    ∃ groups,
      Forall (λ g, (1 ≤ length g ≤ 4)%nat) groups ∧
      concat groups =
        (replicate (length digits - 4) formatters.bullet
           ++ drop (length digits - 4) digits)%list ∧
      formatters.maskAccountNumber str = formatters.join groups.
Proof.
  intros str digits Hdigits.
  assert (Hne : str ≠ []) by (intros ->; done).
  destruct (formattersFacts.maskAccountNumber_nonempty str Hne) as [Hw ->].
  fold digits. set (w := (replicate _ formatters.bullet ++ drop _ digits)%list) in *.
  pose proof (formattersFacts.matchGroups_plain [] w (Forall_nil_2 _) Hw) as Hplain.
  pose proof (formattersFacts.matchGroups_nonempty [] w) as Hnonempty.
  pose proof (formattersFacts.matchGroups_concat [] w Hw) as Hconcat.
  exists (formatters.matchGroups [] w). split; [|split; [done|]].
  - pose proof (formattersFacts.matchGroups_short [] w ltac:(cbn; lia)) as Hshort.
    apply Forall_forall. intros g Hg.
    rewrite Forall_forall in Hshort, Hnonempty.
    specialize (Hshort g Hg). specialize (Hnonempty g Hg).
    destruct g; [done|]. cbn in *. lia.
  - transitivity (formatters.trim (formatters.join (formatters.matchGroups [] w)));
      [|by apply formattersFacts.trim_join].
    pose proof (formattersFacts.unspaced_join _ Hplain) as Hjoin.
    rewrite Hconcat in Hjoin. cbn [app] in Hjoin.
    destruct (formatters.join (formatters.matchGroups [] w)) eqn:Hj; [|done].
    cbn in Hjoin. by rewrite <- Hjoin.
Qed.

Lemma maskAccountNumber_groups_of_four_witness :
  (* "1234-567890" is shown as "•••• ••78 90" *)
  formatters.maskAccountNumber [49; 50; 51; 52; 45; 53; 54; 55; 56; 57; 48]%N
    = [8226; 8226; 8226; 8226; 32; 8226; 8226; 55; 56; 32; 57; 48]%N ∧
  ∃ groups,
    Forall (λ g, (1 ≤ length g ≤ 4)%nat) groups ∧
    formatters.maskAccountNumber [49; 50; 51; 52; 45; 53; 54; 55; 56; 57; 48]%N
      = formatters.join groups.
Proof.
  split; [reflexivity|].
  destruct (maskAccountNumber_groups_of_four [49; 50; 51; 52; 45; 53; 54; 55; 56; 57; 48]%N)
    as (groups & Hlen & _ & Hmask); [discriminate|].
  exists groups. split; [exact Hlen | exact Hmask].
Defined.

(** ** The later error handler *)



(** ** The in-memory database *)

Module memoryDbFacts.
Import memoryDb.

Lemma hasId_true id entry : hasId id entry = true ↔ entry !! "id" = Some id.
Proof. unfold hasId. apply bool_decide_eq_true. Qed.

Lemma findItem_None collection id :
  findItem collection id = None ↔ ∀ entry, entry ∈ collection → entry !! "id" ≠ Some id.
Proof.
  unfold findItem, find. rewrite fmap_None, list_find_None, Forall_forall.
  split; intros H entry Hin; specialize (H entry Hin); by rewrite hasId_true in *.
Qed.

End memoryDbFacts.

(** X28. Adding and looking up: the record [addItem] stores carries every
    field of the item and, unless the item brings an [id] of its own, the
    generated id; it is appended, so earlier look-ups are unaffected; and
    [findItem] with the id of the new record returns that record whenever no
    earlier record has the same id. *)
Theorem addItem_then_findItem :
  ∀ (collection : list memoryDb.Item) (prefix : string) (item : memoryDb.Item)
    (now : Z) (hex : string),
    let out := memoryDb.addItem collection prefix item now hex in
    let record := snd out in
    (∀ k v, item !! k = Some v → record !! k = Some v) ∧
    (item !! "id" = None → record !! "id" = Some (memoryDb.createId prefix now hex)) ∧
    (∀ id found, memoryDb.findItem collection id = Some found →
                 memoryDb.findItem (fst out) id = Some found) ∧
    (∀ id, record !! "id" = Some id → memoryDb.findItem collection id = None →
           memoryDb.findItem (fst out) id = Some record).
Proof.
  intros collection prefix item now hex out record. subst record out.
  unfold memoryDb.addItem. cbn [fst snd]. repeat split.
  - intros k v Hk. by apply lookup_union_Some_l.
  - intros Hnone. rewrite lookup_union_r by done. apply lookup_singleton_eq.
  - intros id found. unfold memoryDb.findItem, find.
    intros ([i x] & Hfind & ->)%fmap_Some. by rewrite (list_find_app_l _ _ _ _ _ Hfind).
  - intros id Hid. unfold memoryDb.findItem, find.
    intros Hnone%fmap_None. rewrite list_find_app_r by done.
    cbn. rewrite decide_True; [done|]. by apply memoryDbFacts.hasId_true.
Qed.

Lemma addItem_then_findItem_witness :
  memoryDb.findItem
    (fst (memoryDb.addItem [] "usr" {[ "email" := "ada@bank.test" ]} 1700000000000 "9f3a1c"))
    "usr_1700000000000_9f3a1c"
  = Some ({[ "email" := "ada@bank.test" ]} ∪ {[ "id" := "usr_1700000000000_9f3a1c" ]}).
Proof.
  destruct (addItem_then_findItem [] "usr" {[ "email" := "ada@bank.test" ]}
              1700000000000 "9f3a1c") as (_ & Hid & _ & Hfind).
  apply Hfind; [|reflexivity].
  exact (Hid eq_refl).
Defined.

(** X29. Removing: [removeItem] answers [false] and leaves the collection
    alone exactly when no record has the id; otherwise it answers [true] and
    takes out one record, the first with that id, keeping all the others in
    their order; when the ids of the collection are pairwise different,
    [findItem] no longer finds the id afterwards. *)
Theorem removeItem_removes_first :
  ∀ (collection : list memoryDb.Item) (id : string),
    let out := memoryDb.removeItem collection id in
    (snd out = false ↔ memoryDb.findItem collection id = None) ∧
    (snd out = false → fst out = collection) ∧
    (snd out = true →
       ∃ before entry after,
         collection = (before ++ entry :: after)%list ∧
         fst out = (before ++ after)%list ∧
         entry !! "id" = Some id ∧
         memoryDb.findItem before id = None) ∧
    (NoDup ((λ entry : memoryDb.Item, entry !! "id") <$> collection) →
       memoryDb.findItem (fst out) id = None).
Proof.
  intros collection id out. subst out. unfold memoryDb.removeItem, memoryDb.findItem.
  destruct (find (memoryDb.hasId id) collection) as [[i entry]|] eqn:Hfind;
    cbn [fst snd fmap option_fmap option_map].
  2:{ repeat split; try done. intros _. by rewrite Hfind. }
  unfold find in Hfind. apply list_find_Some in Hfind as Hspec.
  destruct Hspec as (Hi & Hid & Hfirst).
  apply memoryDbFacts.hasId_true in Hid.
  assert (Hsplit : collection = (take i collection ++ entry :: drop (S i) collection)%list)
    by (by rewrite take_drop_middle).
  assert (Hdel : delete i collection = (take i collection ++ drop (S i) collection)%list)
    by apply delete_take_drop.
  assert (Hbefore : memoryDb.findItem (take i collection) id = None).
  { apply memoryDbFacts.findItem_None. intros e He Heid.
    apply list_elem_of_lookup in He as [j Hj].
    assert (j < i)%nat.
    { apply lookup_lt_Some in Hj. rewrite length_take in Hj. lia. }
    rewrite lookup_take_lt in Hj by done.
    apply (Hfirst j e Hj); [done|]. by apply memoryDbFacts.hasId_true. }
  repeat split; try done.
  - intros _. by exists (take i collection), entry, (drop (S i) collection).
  - intros Hnodup. apply memoryDbFacts.findItem_None. intros e He Heid.
    rewrite Hdel in He. rewrite Hsplit in Hnodup.
    rewrite fmap_app, fmap_cons in Hnodup.
    apply NoDup_app in Hnodup as (_ & Hdisj & Hrest).
    apply NoDup_cons in Hrest as [Hnotin _].
    apply elem_of_app in He as [He|He].
    + apply (Hdisj (e !! "id")); [by apply list_elem_of_fmap_2|].
      rewrite Heid, <- Hid. apply list_elem_of_here.
    + apply Hnotin. rewrite Hid, <- Heid. by apply list_elem_of_fmap_2.
Qed.

Lemma removeItem_removes_first_witness :
  memoryDb.findItem
    (fst (memoryDb.removeItem [ {[ "id" := "a" ]}; {[ "id" := "b" ]} ] "a")) "a" = None.
Proof.
  destruct (removeItem_removes_first [ {[ "id" := "a" ]}; {[ "id" := "b" ]} ] "a")
    as (_ & _ & _ & Hgone).
  apply Hgone. vm_compute.
  repeat constructor; rewrite ?elem_of_cons, ?elem_of_nil; intros H;
    repeat destruct H as [H|H]; done.
Defined.

(** X30. Updating: [updateItem] answers [null] and leaves the collection
    alone exactly when no record has the id; otherwise it changes the first
    record with that id and no other: every field of the updates is set,
    every other field of the record is kept, and the merged record is what it
    returns; unless the updates rename the record, [findItem] then returns
    the merged record. *)
Theorem updateItem_merges :
  ∀ (collection : list memoryDb.Item) (id : string) (updates : memoryDb.Item),
    let out := memoryDb.updateItem collection id updates in
    (snd out = None ↔ memoryDb.findItem collection id = None) ∧
    (snd out = None → fst out = collection) ∧
    (∀ merged, snd out = Some merged →
       ∃ i item,
         find (memoryDb.hasId id) collection = Some (i, item) ∧
         fst out = <[i := merged]> collection ∧
         (∀ k v, updates !! k = Some v → merged !! k = Some v) ∧
         (∀ k, updates !! k = None → merged !! k = item !! k) ∧
         (updates !! "id" = None → memoryDb.findItem (fst out) id = Some merged)).
Proof.
  intros collection id updates out. subst out.
  unfold memoryDb.updateItem, memoryDb.findItem.
  destruct (find (memoryDb.hasId id) collection) as [[i item]|] eqn:Hfind;
    cbn [fst snd fmap option_fmap option_map].
  2:{ repeat split; try done. }
  repeat split; try done.
  intros merged [= <-]. exists i, item. repeat split.
  - intros k v Hk. by apply lookup_union_Some_l.
  - intros k Hk. by apply lookup_union_r.
  - intros Hkeep. unfold find in *. apply list_find_Some in Hfind as (Hi & Hid & Hfirst).
    assert (Hfound : list_find (λ x, memoryDb.hasId id x = true)
                       (<[i := updates ∪ item]> collection) = Some (i, updates ∪ item)).
    { apply list_find_Some. split; [|split].
      - apply list_lookup_insert_eq. by eapply lookup_lt_Some.
      - apply memoryDbFacts.hasId_true. rewrite lookup_union_r by done.
        by apply memoryDbFacts.hasId_true.
      - intros j y Hj Hlt. rewrite list_lookup_insert_ne in Hj by lia. by eapply Hfirst. }
    by rewrite Hfound.
Qed.

Lemma updateItem_merges_witness :
  memoryDb.findItem
    (fst (memoryDb.updateItem [ {[ "id" := "a" ]}; {[ "id" := "b" ]} ] "b"
            {[ "status" := "disabled" ]})) "b"
  = Some ({[ "status" := "disabled" ]} ∪ {[ "id" := "b" ]}).
Proof.
  destruct (updateItem_merges [ {[ "id" := "a" ]}; {[ "id" := "b" ]} ] "b"
              {[ "status" := "disabled" ]}) as (_ & _ & Hsome).
  destruct (Hsome ({[ "status" := "disabled" ]} ∪ {[ "id" := "b" ]}) eq_refl)
    as (i & item & _ & _ & _ & _ & Hfound).
  exact (Hfound eq_refl).
Defined.
